(** * openfisca-nl: a shallow embedding of the variables of the Dutch tax and
    benefit model and of the evaluation engine they run on.

    Numbers are modelled as rationals [Q] (the Python code uses numpy float
    vectors; rounding is not modelled).  A per-entity vector is a [list].
    The formulas of [src/openfisca_nl/variables/*.py] are written as request
    trees: a formula asks the engine for the value of another variable at a
    period, continues with the vector it receives, and finally returns a
    vector.  The engine (openfisca-core, not part of this repository) and the
    period model are modelled from the spec. *)

From Stdlib Require Import QArith Qminmax Lqa List String Bool ZArith Lia.
Import ListNotations.
Open Scope string_scope.
Open Scope Q_scope.

(** ** Periods *)

Inductive DateUnit := MONTH | YEAR.

Definition unit_eqb (a b : DateUnit) : bool :=
  match a, b with
  | MONTH, MONTH | YEAR, YEAR => true
  | _, _ => false
  end.

(** Modelled from the spec (the period model of openfisca-core is not part of
    this repository): a period is a granularity and a start (year, month);
    a Year period is normalised to start in month 1. *)
Record period := mkPeriod {
  unit : DateUnit;
  start_year : Z;
  start_month : Z
}.

Definition period_eqb (p q : period) : bool :=
  unit_eqb (unit p) (unit q) && Z.eqb (start_year p) (start_year q)
  && Z.eqb (start_month p) (start_month q).

(** Modelled from the spec: the constructors [month(year, m)] and [year(y)];
    [month] fails (InvalidPeriod) for a month outside 1..12. *)
Definition month (y m : Z) : option period :=
  if (1 <=? m)%Z && (m <=? 12)%Z then Some (mkPeriod MONTH y m) else None.

Definition year (y : Z) : period := mkPeriod YEAR y 1.

(** Modelled from the spec: a period is well formed when its month lies in
    1..12 and, for a Year period, is 1. *)
Definition valid_period (p : period) : bool :=
  match unit p with
  | YEAR => Z.eqb (start_month p) 1
  | MONTH => (1 <=? start_month p)%Z && (start_month p <=? 12)%Z
  end.

(** Modelled from the spec: [period.first_month]. *)
Definition first_month (p : period) : period :=
  mkPeriod MONTH (start_year p) (start_month p).

(** Modelled from the spec: [period.this_year], the enclosing Year period. *)
Definition this_year (p : period) : period := year (start_year p).

(** Modelled from the spec: the 12 Month periods of a Year period, in
    calendar order. *)
Definition months_of (p : period) : list period :=
  map (fun m => mkPeriod MONTH (start_year p) (Z.of_nat m)) (seq 1 12).

(** ** Values *)

(** Modelled from the spec: the enumeration [HousingOccupancyStatus] is
    declared outside [src/]; the spec names its symbols owner, tenant and
    other. *)
Inductive HousingOccupancyStatus := owner | tenant | other.

Definition status_eqb (a b : HousingOccupancyStatus) : bool :=
  match a, b with
  | owner, owner | tenant, tenant | other, other => true
  | _, _ => false
  end.

(** One entry of a population vector. *)
Inductive val :=
| VF (q : Q)
| VB (b : bool)
| VE (e : HousingOccupancyStatus).

Definition b2Q (b : bool) : Q := if b then 1 else 0.

(** numpy arithmetic on a vector entry: a bool counts as 0 or 1. *)
Definition to_Q (v : val) : Q :=
  match v with
  | VF q => q
  | VB b => b2Q b
  | VE _ => 0
  end.

Definition to_bool (v : val) : bool :=
  match v with
  | VB b => b
  | VF q => negb (Qeq_bool q 0)
  | VE _ => true
  end.

Definition to_status (v : val) : HousingOccupancyStatus :=
  match v with
  | VE e => e
  | _ => other
  end.

Definition floats (v : list val) : list Q := map to_Q v.
Definition bools (v : list val) : list bool := map to_bool v.
Definition statuses (v : list val) : list HousingOccupancyStatus :=
  map to_status v.
Definition of_floats (v : list Q) : list val := map VF v.

(** Elementwise numpy operations. *)
Fixpoint map2 {A B C} (f : A -> B -> C) (a : list A) (b : list B) : list C :=
  match a, b with
  | x :: a', y :: b' => f x y :: map2 f a' b'
  | _, _ => []
  end.

Definition vadd := map2 Qplus.
Definition vsub := map2 Qminus.
Definition vmul := map2 Qmult.
Definition vscale (v : list Q) (c : Q) := map (fun x => x * c) v.
Definition vdiv (v : list Q) (c : Q) := map (fun x => x / c) v.
(** [numpy.maximum(v, c)] and [numpy.minimum(v, c)] against a scalar. *)
Definition vmax_s (v : list Q) (c : Q) := map (fun x => Qmax x c) v.
Definition vmin_s (v : list Q) (c : Q) := map (fun x => Qmin x c) v.
Definition vmax := map2 Qmax.
Definition vmin := map2 Qmin.
(** [numpy.where(c, a, b)]. *)
Definition vwhere (c : list bool) (a b : list Q) : list Q :=
  map2 (fun (c' : bool) (xy : Q * Q) => if c' then fst xy else snd xy) c (combine a b).

(** ** Errors *)

Inductive error :=
| UnknownVariable
| DuplicateVariable
| PeriodMismatch
| CyclicDependency
| InvalidScale
| OutOfFuel.

Inductive result (A : Type) :=
| Ok (a : A)
| Err (e : error).
Arguments Ok {A} a.
Arguments Err {A} e.

Definition res_map {A B} (f : A -> B) (r : result A) : result B :=
  match r with Ok a => Ok (f a) | Err e => Err e end.

(** ** Bracket scales (spec section 4.2) *)

(** A scale: (threshold, marginal rate) pairs. *)
Definition scale := list (Q * Q).

(** Modelled from the spec (the scale evaluator of openfisca-core is not part
    of this repository): the tax on one value [v], the sum over brackets i
    with threshold[i] < v of rate[i] * (min(v, threshold[i+1]) - threshold[i]),
    the last bracket being unbounded. *)
Fixpoint calc_one (s : scale) (v : Q) : Q :=
  match s with
  | [] => 0
  | (t, r) :: rest =>
      let upper := match rest with [] => v | (t', _) :: _ => Qmin v t' end in
      (if Qle_bool v t then 0 else r * (upper - t)) + calc_one rest v
  end.

Fixpoint increasing (ts : list Q) : bool :=
  match ts with
  | t :: ((t' :: _) as rest) => negb (Qle_bool t' t) && increasing rest
  | _ => true
  end.

(** Modelled from the spec: a scale is well formed when its thresholds are
    strictly increasing and the first one is 0. *)
Definition valid_scale (s : scale) : bool :=
  match s with
  | [] => false
  | (t0, _) :: _ => Qeq_bool t0 0 && increasing (map fst s)
  end.

(** Modelled from the spec: [scale.calc(values)], elementwise, failing with
    InvalidScale on a malformed scale. *)
Definition calc (s : scale) (vs : list Q) : result (list Q) :=
  if valid_scale s then Ok (map (calc_one s) vs) else Err InvalidScale.

(** ** Parameters, entities and populations *)

(** The leaves of the parameter tree the formulas read, for one period
    (the parameter store itself is an external collaborator). *)
Record Params := mkParams {
  algemene_heffingskorting_max : Q;
  algemene_heffingskorting_income_threshold : Q;
  algemene_heffingskorting_phase_out_rate : Q;
  arbeidskorting_max : Q;
  arbeidskorting_max_income : Q;
  arbeidskorting_buildup_rate : Q;
  arbeidskorting_phase_out_rate : Q;
  age_of_retirement : Q;
  income_tax_brackets : scale;
  income_tax_brackets_aow : scale;
  social_security_contribution_scale : scale;
  housing_tax_rate : Q;
  housing_tax_minimal_amount : Q;
  zelfstandigenaftrek_amount : Q;
  mkb_winstvrijstelling_rate : Q
}.

Inductive Entity := Person | Household.

(** Persons, each one a member of a household given by its index. *)
Record population := mkPopulation {
  household_of : list nat;
  household_count : nat
}.

Definition entity_count (pop : population) (e : Entity) : nat :=
  match e with
  | Person => List.length (household_of pop)
  | Household => household_count pop
  end.

(** Modelled from the spec: [household.sum(v)], for each household the sum
    of the values of its members, in membership order. *)
Definition hsum (pop : population) (v : list Q) : list Q :=
  map (fun j =>
         fold_right Qplus 0
           (map snd (filter (fun hx => Nat.eqb (fst hx) j)
                       (combine (household_of pop) v))))
      (seq 0 (household_count pop)).

(** ** Formulas as request trees *)

(** A formula asks for [(name, period)] (with the [DIVIDE] option when
    [divide] is set), continues with the vector it receives, and ends in a
    vector or an error. *)
Inductive formula_tree :=
| Ret (v : list val)
| Fail (e : error)
| Ask (name : string) (p : period) (divide : bool) (k : list val -> formula_tree).

(** [person(name, period)], [household(name, period)] and
    [household.members(name, period)]: a plain request. *)
Definition ask (name : string) (p : period) (k : list val -> formula_tree) :=
  Ask name p false k.

(** [household(name, period, [DIVIDE])]. *)
Definition ask_divide (name : string) (p : period) (k : list val -> formula_tree) :=
  Ask name p true k.

(** A scale computation inside a formula: its error aborts the formula. *)
Definition with_calc (r : result (list Q)) (k : list Q -> formula_tree) :=
  match r with
  | Ok v => k v
  | Err e => Fail e
  end.

Section Formulas.

Variable parameters : period -> Params.
Variable pop : population.

(** taxes.py, [arbeidsinkomen.formula] *)
Definition arbeidsinkomen (p : period) : formula_tree :=
  ask "salary" p (fun salary =>
  ask "self_employment_taxable_income" p (fun se_income =>
  Ret (of_floats (vadd (floats salary) (floats se_income))))).

(** taxes.py, [algemene_heffingskorting.formula] *)
Definition algemene_heffingskorting (p : period) : formula_tree :=
  let params := parameters p in
  ask "taxable_income" p (fun monthly_taxable_income =>
  let annual_taxable_income := vscale (floats monthly_taxable_income) 12 in
  let max_credit := algemene_heffingskorting_max params in
  let threshold := algemene_heffingskorting_income_threshold params in
  let phase_out_rate := algemene_heffingskorting_phase_out_rate params in
  let excess_income :=
    vmax_s (map (fun x => x - threshold) annual_taxable_income) 0 in
  let reduction := vscale excess_income phase_out_rate in
  let annual_credit := vmax_s (map (fun r => max_credit - r) reduction) 0 in
  Ret (of_floats (vdiv annual_credit 12))).

(** taxes.py, [arbeidskorting.formula] *)
Definition arbeidskorting (p : period) : formula_tree :=
  let params := parameters p in
  ask "arbeidsinkomen" p (fun monthly_arbeidsinkomen =>
  let annual_labor_income := vscale (floats monthly_arbeidsinkomen) 12 in
  let max_credit := arbeidskorting_max params in
  let max_income := arbeidskorting_max_income params in
  let buildup_rate := arbeidskorting_buildup_rate params in
  let phase_out_rate := arbeidskorting_phase_out_rate params in
  let buildup_credit := vscale annual_labor_income buildup_rate in
  let excess_income :=
    vmax_s (map (fun x => x - max_income) annual_labor_income) 0 in
  let phase_out_reduction := vscale excess_income phase_out_rate in
  let annual_credit :=
    map (fun x => Qmax 0 x)
        (vsub (vmin_s buildup_credit max_credit) phase_out_reduction) in
  Ret (of_floats (vdiv annual_credit 12))).

(** taxes.py, [taxable_income.formula] *)
Definition taxable_income (p : period) : formula_tree :=
  ask "salary" p (fun salary =>
  ask "capital_returns" p (fun capital_returns =>
  ask "pension" p (fun pension =>
  let base_income :=
    vadd (vadd (floats salary) (floats capital_returns)) (floats pension) in
  ask "self_employment_taxable_income" p (fun se_income =>
  Ret (of_floats (vadd base_income (floats se_income))))))).

(** taxes.py, [income_tax.formula] *)
Definition income_tax (p : period) : formula_tree :=
  ask "taxable_income" p (fun taxable_income =>
  ask "age" p (fun age =>
  let aow_age := age_of_retirement (parameters p) in
  let is_aow_age := map (fun a => Qle_bool aow_age a) (floats age) in
  let scale := income_tax_brackets_aow (parameters p) in
  let scale_regular := income_tax_brackets (parameters p) in
  with_calc (calc scale (floats taxable_income)) (fun gross_tax_aow =>
  with_calc (calc scale_regular (floats taxable_income)) (fun gross_tax_regular =>
  let gross_tax := vwhere is_aow_age gross_tax_aow gross_tax_regular in
  ask "algemene_heffingskorting" p (fun algemene_heffingskorting =>
  ask "arbeidskorting" p (fun arbeidskorting =>
  Ret (of_floats
         (vmax_s (vsub (vsub gross_tax (floats algemene_heffingskorting))
                       (floats arbeidskorting)) 0)))))))).

(** taxes.py, [social_security_contribution.formula] *)
Definition social_security_contribution (p : period) : formula_tree :=
  ask "salary" p (fun salary =>
  let scale := social_security_contribution_scale (parameters p) in
  with_calc (calc scale (floats salary)) (fun tax => Ret (of_floats tax))).

(** taxes.py, [housing_tax.formula]: [owner + tenant] on numpy bool arrays is
    the elementwise or, and a bool times a float counts as 0 or 1. *)
Definition housing_tax (p : period) : formula_tree :=
  let january := first_month p in
  ask "accommodation_size" january (fun accommodation_size =>
  let tax_params := parameters p in
  let tax_amount :=
    vmax_s (vscale (floats accommodation_size) (housing_tax_rate tax_params))
           (housing_tax_minimal_amount tax_params) in
  ask "housing_occupancy_status" january (fun occupancy_status =>
  let tenant_ := map (fun s => status_eqb s tenant) (statuses occupancy_status) in
  let owner_ := map (fun s => status_eqb s owner) (statuses occupancy_status) in
  Ret (of_floats (vmul (map b2Q (map2 orb owner_ tenant_)) tax_amount)))).

(** self_employment.py, [zelfstandigenaftrek.formula] *)
Definition zelfstandigenaftrek (p : period) : formula_tree :=
  let year := this_year p in
  ask "urencriterium_voldaan" year (fun hours_criterion_met =>
  let annual_deduction := zelfstandigenaftrek_amount (parameters p) in
  let monthly_deduction := annual_deduction / 12 in
  Ret (of_floats (vscale (floats hours_criterion_met) monthly_deduction))).

(** self_employment.py, [mkb_winstvrijstelling.formula] *)
Definition mkb_winstvrijstelling (p : period) : formula_tree :=
  ask "winst_voor_aftrek" p (fun profit_before =>
  ask "zelfstandigenaftrek" p (fun aftrek =>
  let profit_after_deductions :=
    vmax_s (vsub (floats profit_before) (floats aftrek)) 0 in
  let rate := mkb_winstvrijstelling_rate (parameters p) in
  Ret (of_floats (vscale profit_after_deductions rate)))).

(** self_employment.py, [self_employment_taxable_income.formula] *)
Definition self_employment_taxable_income (p : period) : formula_tree :=
  ask "winst_voor_aftrek" p (fun winst =>
  ask "zelfstandigenaftrek" p (fun zelfstandigenaftrek =>
  ask "mkb_winstvrijstelling" p (fun mkb =>
  let taxable := vsub (vsub (floats winst) (floats zelfstandigenaftrek)) (floats mkb) in
  Ret (of_floats (vmax_s taxable 0))))).

(** income.py, [disposable_income.formula] *)
Definition disposable_income (p : period) : formula_tree :=
  ask "salary" p (fun salary_i =>
  let salary := hsum pop (floats salary_i) in
  ask "self_employment_taxable_income" p (fun se_i =>
  let se_income := hsum pop (floats se_i) in
  ask "capital_returns" p (fun capital_returns_i =>
  let capital_returns := hsum pop (floats capital_returns_i) in
  ask "pension" p (fun pension_i =>
  let pension := hsum pop (floats pension_i) in
  ask "income_tax" p (fun income_tax_i =>
  let income_tax := hsum pop (floats income_tax_i) in
  ask_divide "housing_tax" p (fun housing_tax =>
  ask "social_security_contribution" p (fun ssc_i =>
  let social_security_contribution := hsum pop (floats ssc_i) in
  Ret (of_floats
         (vsub (vsub (vsub (vadd (vadd (vadd salary se_income) capital_returns)
                                 pension)
                           income_tax)
                     (floats housing_tax))
               social_security_contribution))))))))).

(** income.py, [winst_voor_aftrek.formula] *)
Definition winst_voor_aftrek (p : period) : formula_tree :=
  ask "omzet" p (fun omzet =>
  ask "kosten" p (fun kosten =>
  Ret (of_floats (vsub (floats omzet) (floats kosten))))).

(** benefits.py, [pension.formula]: the scalar 0 is broadcast to the persons. *)
Definition pension (p : period) : formula_tree :=
  Ret (repeat (VF 0) (entity_count pop Person)).

(** benefits.py, [household_income.formula] *)
Definition household_income (p : period) : formula_tree :=
  ask "salary" p (fun salaries =>
  Ret (of_floats (hsum pop (floats salaries)))).

(** stats.py, [total_taxes.formula] *)
Definition total_taxes (p : period) : formula_tree :=
  ask "income_tax" p (fun income_tax_i =>
  ask "social_security_contribution" p (fun social_security_contribution_i =>
  ask "housing_tax" (this_year p) (fun housing_tax =>
  Ret (of_floats
         (vadd (vadd (hsum pop (floats income_tax_i))
                     (hsum pop (floats social_security_contribution_i)))
               (vdiv (floats housing_tax) 12)))))).

End Formulas.

(** ** Variables and the registry *)

Inductive value_type :=
| Float
| Bool
| Enum (default : HousingOccupancyStatus).

(** A variable declaration: [entity], [value_type], [definition_period],
    [set_input = set_input_divide_by_period] and the optional [formula]. *)
Record variable := mkVariable {
  var_name : string;
  entity : Entity;
  var_type : value_type;
  definition_period : DateUnit;
  set_input_divide_by_period : bool;
  formula : option (period -> formula_tree)
}.

Definition default_value (t : value_type) : val :=
  match t with
  | Float => VF 0
  | Bool => VB false
  | Enum d => VE d
  end.

(** The variables of [src/openfisca_nl/variables].  [age],
    [accommodation_size] and [housing_occupancy_status] are declared outside
    [src/]; they are read by the formulas as pure inputs (the default symbol
    of the occupancy status is taken to be [tenant]). *)
Definition tax_benefit_system (parameters : period -> Params) (pop : population)
  : list variable :=
  [ mkVariable "salary" Person Float MONTH true None;
    mkVariable "capital_returns" Person Float MONTH true None;
    mkVariable "disposable_income" Household Float MONTH false
      (Some (disposable_income pop));
    mkVariable "omzet" Person Float MONTH false None;
    mkVariable "kosten" Person Float MONTH false None;
    mkVariable "winst_voor_aftrek" Person Float MONTH false
      (Some winst_voor_aftrek);
    mkVariable "pension" Person Float MONTH false (Some (pension pop));
    mkVariable "household_income" Household Float MONTH false
      (Some (household_income pop));
    mkVariable "urencriterium_voldaan" Person Bool YEAR false None;
    mkVariable "zelfstandigenaftrek" Person Float MONTH false
      (Some (zelfstandigenaftrek parameters));
    mkVariable "mkb_winstvrijstelling" Person Float MONTH false
      (Some (mkb_winstvrijstelling parameters));
    mkVariable "self_employment_taxable_income" Person Float MONTH false
      (Some self_employment_taxable_income);
    mkVariable "total_taxes" Household Float MONTH false
      (Some (total_taxes pop));
    mkVariable "arbeidsinkomen" Person Float MONTH false (Some arbeidsinkomen);
    mkVariable "algemene_heffingskorting" Person Float MONTH false
      (Some (algemene_heffingskorting parameters));
    mkVariable "arbeidskorting" Person Float MONTH false
      (Some (arbeidskorting parameters));
    mkVariable "taxable_income" Person Float MONTH false (Some taxable_income);
    mkVariable "income_tax" Person Float MONTH false (Some (income_tax parameters));
    mkVariable "social_security_contribution" Person Float MONTH false
      (Some (social_security_contribution parameters));
    mkVariable "housing_tax" Household Float YEAR false (Some (housing_tax parameters));
    mkVariable "age" Person Float MONTH false None;
    mkVariable "accommodation_size" Household Float MONTH false None;
    mkVariable "housing_occupancy_status" Household (Enum tenant) MONTH false None ].

Definition find_variable (registry : list variable) (name : string)
  : option variable :=
  find (fun v => String.eqb (var_name v) name) registry.

(** Modelled from the spec: the [DIVIDE] option converts a Year variable
    requested at a Month period. *)
Definition divide_applies (registry : list variable) (name : string) (p : period)
  : bool :=
  match find_variable registry name with
  | Some v => unit_eqb (definition_period v) YEAR && unit_eqb (unit p) MONTH
  | None => false
  end.

Definition divide12 (v : list val) : list val := of_floats (vdiv (floats v) 12).

(** ** The evaluation engine (spec section 4.4) *)

Definition key := (string * period)%type.

Definition key_eqb (a b : key) : bool :=
  String.eqb (fst a) (fst b) && period_eqb (snd a) (snd b).

Fixpoint assoc {A} (k : key) (l : list (key * A)) : option A :=
  match l with
  | [] => None
  | (k', a) :: l' => if key_eqb k k' then Some a else assoc k l'
  end.

(** The per-run cache and the pairs being computed. *)
Record state := mkState {
  cache : list (key * list val);
  pending : list key
}.

Definition empty_state := mkState [] [].

Section Engine.

Variable registry : list variable.
Variable pop : population.
(** Caller-supplied inputs, by (variable name, period). *)
Variable inputs : list (key * list val).

Definition default_vector (v : variable) : list val :=
  repeat (default_value (var_type v)) (entity_count pop (entity v)).

(** Modelled from the spec (section 4.4, step 3): the value of a
    formula-less variable, read from the inputs at the exact period; for a
    Month request with only a Year-level input, that input spread evenly over
    the 12 months when the variable is period-divisible, and a period
    mismatch otherwise; with no input at all, the default vector. *)
Definition read_input (v : variable) (p : period) : result (list val) :=
  match assoc (var_name v, p) inputs with
  | Some x => Ok x
  | None =>
      if unit_eqb (unit p) MONTH then
        match assoc (var_name v, this_year p) inputs with
        | Some x =>
            if set_input_divide_by_period v then Ok (divide12 x)
            else Err PeriodMismatch
        | None => Ok (default_vector v)
        end
      else Ok (default_vector v)
  end.

(** Modelled from the spec: a request of a formula, with the [DIVIDE]
    conversion. *)
Definition request
    (eval : string -> period -> state -> result (list val) * state)
    (name : string) (p : period) (divide : bool) (st : state)
  : result (list val) * state :=
  if divide && divide_applies registry name p then
    let (r, st') := eval name (this_year p) st in (res_map divide12 r, st')
  else eval name p st.

(** Running a formula: each request goes to the engine; an error aborts. *)
Fixpoint run_tree
    (ask : string -> period -> bool -> state -> result (list val) * state)
    (t : formula_tree) (st : state) : result (list val) * state :=
  match t with
  | Ret v => (Ok v, st)
  | Fail e => (Err e, st)
  | Ask n q d k =>
      match ask n q d st with
      | (Ok v, st') => run_tree ask (k v) st'
      | (Err e, st') => (Err e, st')
      end
  end.

(** Modelled from the spec: [evaluate(name, period)], steps 1 to 5 of
    section 4.4.  [fuel] bounds the nesting of requests. *)
Fixpoint evaluate (fuel : nat) (name : string) (p : period) (st : state)
  : result (list val) * state :=
  match fuel with
  | O => (Err OutOfFuel, st)
  | S fuel' =>
      match assoc (name, p) (cache st) with
      | Some v => (Ok v, st)
      | None =>
          match find_variable registry name with
          | None => (Err UnknownVariable, st)
          | Some var =>
              if negb (unit_eqb (unit p) (definition_period var)) then
                (Err PeriodMismatch, st)
              else if existsb (key_eqb (name, p)) (pending st) then
                (Err CyclicDependency, st)
              else
                match formula var with
                | None =>
                    match read_input var p with
                    | Ok v => (Ok v, mkState (((name, p), v) :: cache st) (pending st))
                    | Err e => (Err e, st)
                    end
                | Some f =>
                    match run_tree (request (evaluate fuel')) (f p)
                            (mkState (cache st) ((name, p) :: pending st)) with
                    | (Ok v, st2) =>
                        (Ok v, mkState (((name, p), v) :: cache st2) (pending st))
                    | (Err e, st2) => (Err e, st2)
                    end
                end
          end
      end
  end.

(** One calculation run: a fresh cache. *)
Definition calculate (fuel : nat) (name : string) (p : period)
  : result (list val) :=
  fst (evaluate fuel name p empty_state).

End Engine.

(** Running a formula against the values of its requests: [answer n p d]
    is the vector the engine hands back for the request [(n, p, d)]. *)
Fixpoint run_pure (answer : string -> period -> bool -> list val)
    (t : formula_tree) : result (list val) :=
  match t with
  | Ret v => Ok v
  | Fail e => Err e
  | Ask n q d k => run_pure answer (k (answer n q d))
  end.

(** A well-formed scale (thresholds 0, strictly increasing) whose single
    marginal rate is negative. *)
Definition negative_rate_scale : scale := [(0, -1 # 10)].

(** The answer the engine gives to a request when the run's values are
    [values]: the pure counterpart of [request]. *)
Definition answer_of (registry : list variable)
    (values : string -> period -> list val) (name : string) (p : period)
    (divide : bool) : list val :=
  if divide && divide_applies registry name p then
    divide12 (values name (this_year p))
  else values name p.

(** [(name, p)]'s formula starts by requesting [k']. *)
Definition first_request (registry : list variable) (k k' : key) : Prop :=
  exists v f kont,
    find_variable registry (fst k) = Some v /\
    unit (snd k) = definition_period v /\
    formula v = Some f /\
    f (snd k) = Ask (fst k') (snd k') false kont.

(** A chain of first requests from [k] through [ks] to [target]. *)
Fixpoint request_chain (registry : list variable) (k : key) (ks : list key)
    (target : key) : Prop :=
  match ks with
  | [] => first_request registry k target
  | k' :: ks' => first_request registry k k' /\ request_chain registry k' ks' target
  end.

(** Sample data: parameters, a population of three persons in two
    households, and a month. *)
Definition sample_params (_ : period) : Params :=
  mkParams 3000 24000 (6 # 100) 5000 40000 (8 # 100) (6 # 100) 67
    [(0, 10 # 100); (2000, 30 # 100)] [(0, 5 # 100); (2000, 30 # 100)]
    [(0, 2 # 100); (5000, 1 # 10)] 10 200 1200 (14 # 100).

Definition sample_pop := mkPopulation [0%nat; 0%nat; 1%nat] 2.

Definition january_2024 := mkPeriod MONTH 2024 1.

Definition sample_system := tax_benefit_system sample_params sample_pop.

(** One person, in one household. *)
Definition single_pop := mkPopulation [0%nat] 1.

Definition single_system := tax_benefit_system sample_params single_pop.

(** A salary of 3000 for January 2024 and nothing else. *)
Definition salary_only_inputs : list (key * list val) :=
  [(("salary", january_2024), [VF 3000])].

(** A salary declared for the whole year 2024 only. *)
Definition yearly_salary_inputs : list (key * list val) :=
  [(("salary", year 2024), [VF 1200])].

(** A revenue declared for the whole year 2024 only. *)
Definition yearly_omzet_inputs : list (key * list val) :=
  [(("omzet", year 2024), [VF 1200])].

(** Two variables whose formulas request each other. *)
Definition cyclic_registry : list variable :=
  [ mkVariable "a" Person Float MONTH false (Some (fun p => ask "b" p Ret));
    mkVariable "b" Person Float MONTH false (Some (fun p => ask "a" p Ret)) ].

(** [st'] keeps every pair pending in [st] pending, and keeps it out of
    the cache if it was. *)
Definition keeps_pending (st st' : state) : Prop :=
  (exists extra, pending st' = (extra ++ pending st)%list) /\
  forall k, In k (pending st) -> assoc k (cache st) = None ->
            assoc k (cache st') = None.

(** Sample answers to a person's requests. *)
Definition sample_answer (n : string) (_ : period) (_ : bool) : list val :=
  if String.eqb n "taxable_income" then [VF 3000]
  else if String.eqb n "age" then [VF 70]
  else if String.eqb n "algemene_heffingskorting" then [VF 100]
  else if String.eqb n "arbeidskorting" then [VF 50]
  else if String.eqb n "salary" then [VF 3000]
  else if String.eqb n "capital_returns" then [VF (-500)]
  else if String.eqb n "winst_voor_aftrek" then [VF 400]
  else if String.eqb n "zelfstandigenaftrek" then [VF 100]
  else if String.eqb n "mkb_winstvrijstelling" then [VF 42]
  else if String.eqb n "housing_occupancy_status" then [VE owner]
  else [VF 0].

(** Sample values of a run: [housing_tax] per household, everything else per
    person. *)
Definition sample_values (n : string) (_ : period) : list val :=
  if String.eqb n "housing_tax" then [VF 1200; VF 0]
  else [VF 100; VF 50; VF 20].

Definition sample_scale : scale := [(0, 10 # 100); (2000, 30 # 100)].

(** The entry of entity [i] of a formula's result. *)
Definition value_at (r : result (list val)) (i : nat) : option Q :=
  match r with
  | Ok v => option_map to_Q (nth_error v i)
  | Err _ => None
  end.

(** Answers for a self-employed person who meets the hours criterion. *)
Definition self_employed_answer (n : string) (_ : period) (_ : bool) : list val :=
  if String.eqb n "urencriterium_voldaan" then [VB true]
  else sample_answer n january_2024 false.

(** Parameters whose income tax and contribution scales are empty. *)
Definition invalid_scale_params (_ : period) : Params :=
  mkParams 3000 24000 (6 # 100) 5000 40000 (8 # 100) (6 # 100) 67
    [] [] [] 10 200 1200 (14 # 100).

(** Salaries of the three persons of [sample_pop]. *)
Definition three_salaries_answer (n : string) (q : period) (d : bool) : list val :=
  if String.eqb n "salary" then [VF 3000; VF 2000; VF 500]
  else sample_answer n q d.

(** ** Vector lemmas *)

Lemma nth_error_map2 {A B C} (f : A -> B -> C) a b i :
  nth_error (map2 f a b) i =
  match nth_error a i, nth_error b i with
  | Some x, Some y => Some (f x y)
  | _, _ => None
  end.
Proof.
  revert b i; induction a as [|x a IH]; intros [|y b] [|i]; simpl; auto.
  destruct (nth_error a i); reflexivity.
Qed.

Lemma nth_error_combine {A B} (a : list A) (b : list B) i :
  nth_error (combine a b) i =
  match nth_error a i, nth_error b i with
  | Some x, Some y => Some (x, y)
  | _, _ => None
  end.
Proof.
  revert b i; induction a as [|x a IH]; intros [|y b] [|i]; simpl; auto.
  destruct (nth_error a i); reflexivity.
Qed.

Lemma nth_error_seq_lt start n i :
  (i < n)%nat -> nth_error (seq start n) i = Some (start + i)%nat.
Proof.
  revert start i; induction n as [|n IH]; intros start [|i] Hi; simpl.
  - lia.
  - lia.
  - f_equal; lia.
  - rewrite IH by lia. f_equal; lia.
Qed.

(** Reads the entries of a formula's dependencies at an index. *)
Ltac entries :=
  unfold vadd, vsub, vmul, vscale, vdiv, vmax_s, vmin_s, vmax, vmin, vwhere,
    floats, of_floats, bools, statuses in *;
  repeat first
    [ rewrite nth_error_map2
    | rewrite nth_error_combine
    | rewrite nth_error_map
    | match goal with H : nth_error _ _ = Some _ |- _ => rewrite H end ];
  simpl.

(** ** Claims about the formulas *)

(** The entry of a person in [taxable_income]. *)
Lemma taxable_income_entry_sum answer p i s c pn se :
  nth_error (answer "salary" p false) i = Some (VF s) ->
  nth_error (answer "capital_returns" p false) i = Some (VF c) ->
  nth_error (answer "pension" p false) i = Some (VF pn) ->
  nth_error (answer "self_employment_taxable_income" p false) i = Some (VF se) ->
  value_at (run_pure answer (taxable_income p)) i = Some (s + c + pn + se).
Proof.
  intros Hs Hc Hp Hse. simpl. entries. reflexivity.
Qed.

(** The entry of a person in [income_tax]. *)
Lemma income_tax_entry parameters answer p i t a h k :
  valid_scale (income_tax_brackets_aow (parameters p)) = true ->
  valid_scale (income_tax_brackets (parameters p)) = true ->
  nth_error (answer "taxable_income" p false) i = Some (VF t) ->
  nth_error (answer "age" p false) i = Some (VF a) ->
  nth_error (answer "algemene_heffingskorting" p false) i = Some (VF h) ->
  nth_error (answer "arbeidskorting" p false) i = Some (VF k) ->
  value_at (run_pure answer (income_tax parameters p)) i =
  Some (Qmax ((if Qle_bool (age_of_retirement (parameters p)) a
               then calc_one (income_tax_brackets_aow (parameters p)) t
               else calc_one (income_tax_brackets (parameters p)) t) - h - k) 0).
Proof.
  intros Haow Hreg Ht Ha Hh Hk. simpl.
  unfold with_calc, calc. rewrite Haow, Hreg. simpl.
  entries. reflexivity.
Qed.

(** C1: for every person and Month period, [income_tax] is
    max(gross_tax - (algemene_heffingskorting + arbeidskorting), 0), where
    gross_tax is the bracket-scale tax ([calc_one]) on the person's
    [taxable_income] of the period; it is never negative. *)
Theorem income_tax_is_clamped_gross_minus_credits parameters answer p i t a h k :
  valid_scale (income_tax_brackets_aow (parameters p)) = true ->
  valid_scale (income_tax_brackets (parameters p)) = true ->
  nth_error (answer "taxable_income" p false) i = Some (VF t) ->
  nth_error (answer "age" p false) i = Some (VF a) ->
  nth_error (answer "algemene_heffingskorting" p false) i = Some (VF h) ->
  nth_error (answer "arbeidskorting" p false) i = Some (VF k) ->
  exists S x,
    (S = income_tax_brackets_aow (parameters p) \/
     S = income_tax_brackets (parameters p)) /\
    value_at (run_pure answer (income_tax parameters p)) i = Some x /\
    x == Qmax (calc_one S t - (h + k)) 0 /\ 0 <= x.
Proof.
  intros Haow Hreg Ht Ha Hh Hk.
  rewrite (income_tax_entry parameters answer p i t a h k) by assumption.
  set (g := if Qle_bool (age_of_retirement (parameters p)) a
            then calc_one (income_tax_brackets_aow (parameters p)) t
            else calc_one (income_tax_brackets (parameters p)) t).
  exists (if Qle_bool (age_of_retirement (parameters p)) a
          then income_tax_brackets_aow (parameters p)
          else income_tax_brackets (parameters p)).
  exists (Qmax (g - h - k) 0). split; [|split; [reflexivity|split]].
  - destruct (Qle_bool _ a); auto.
  - unfold g. destruct (Qle_bool _ a);
      apply Q.max_compat; try reflexivity; ring.
  - apply Q.le_max_r.
Qed.

(** C10: the gross income tax of a person is computed with
    [income_tax_brackets_aow] when the person's age of the period is at least
    [age_of_retirement], and with [income_tax_brackets] otherwise; the choice
    is made for each person, from that person's own age. *)
Theorem income_tax_scale_selected_by_age parameters answer p i t a h k :
  valid_scale (income_tax_brackets_aow (parameters p)) = true ->
  valid_scale (income_tax_brackets (parameters p)) = true ->
  nth_error (answer "taxable_income" p false) i = Some (VF t) ->
  nth_error (answer "age" p false) i = Some (VF a) ->
  nth_error (answer "algemene_heffingskorting" p false) i = Some (VF h) ->
  nth_error (answer "arbeidskorting" p false) i = Some (VF k) ->
  (age_of_retirement (parameters p) <= a ->
   value_at (run_pure answer (income_tax parameters p)) i =
   Some (Qmax (calc_one (income_tax_brackets_aow (parameters p)) t - h - k) 0)) /\
  (a < age_of_retirement (parameters p) ->
   value_at (run_pure answer (income_tax parameters p)) i =
   Some (Qmax (calc_one (income_tax_brackets (parameters p)) t - h - k) 0)).
Proof.
  intros Haow Hreg Ht Ha Hh Hk.
  rewrite (income_tax_entry parameters answer p i t a h k) by assumption.
  split; intros Hage.
  - apply Qle_bool_iff in Hage. rewrite Hage. reflexivity.
  - destruct (Qle_bool _ a) eqn:E; [|reflexivity].
    apply Qle_bool_iff in E. exfalso. apply (Qlt_not_le _ _ Hage E).
Qed.

(** C5: [income_tax] and [self_employment_taxable_income] are clamped at 0,
    while [taxable_income] is the plain sum of its parts, so it is negative
    whenever that sum is. *)
Theorem clamps_only_where_formulas_state parameters answer p i
    t a h k w z m s c pn se :
  valid_scale (income_tax_brackets_aow (parameters p)) = true ->
  valid_scale (income_tax_brackets (parameters p)) = true ->
  nth_error (answer "taxable_income" p false) i = Some (VF t) ->
  nth_error (answer "age" p false) i = Some (VF a) ->
  nth_error (answer "algemene_heffingskorting" p false) i = Some (VF h) ->
  nth_error (answer "arbeidskorting" p false) i = Some (VF k) ->
  nth_error (answer "winst_voor_aftrek" p false) i = Some (VF w) ->
  nth_error (answer "zelfstandigenaftrek" p false) i = Some (VF z) ->
  nth_error (answer "mkb_winstvrijstelling" p false) i = Some (VF m) ->
  nth_error (answer "salary" p false) i = Some (VF s) ->
  nth_error (answer "capital_returns" p false) i = Some (VF c) ->
  nth_error (answer "pension" p false) i = Some (VF pn) ->
  nth_error (answer "self_employment_taxable_income" p false) i = Some (VF se) ->
  (exists x, value_at (run_pure answer (income_tax parameters p)) i = Some x /\
             0 <= x) /\
  (exists y,
     value_at (run_pure answer (self_employment_taxable_income p)) i = Some y /\
     y == Qmax (w - z - m) 0 /\ 0 <= y) /\
  (exists v, value_at (run_pure answer (taxable_income p)) i = Some v /\
             v == s + c + pn + se /\ (s + c + pn + se < 0 -> v < 0)).
Proof.
  intros Haow Hreg Ht Ha Hh Hk Hw Hz Hm Hs Hc Hp Hse.
  split; [|split].
  - rewrite (income_tax_entry parameters answer p i t a h k) by assumption.
    eexists; split; [reflexivity|]. apply Q.le_max_r.
  - eexists; split; [simpl; entries; reflexivity|].
    split; [reflexivity|apply Q.le_max_r].
  - exists (s + c + pn + se). split; [|split; [reflexivity|auto]].
    apply taxable_income_entry_sum; assumption.
Qed.

(** C9: for every household and period, [housing_tax] is
    max(accommodation_size * rate, minimal_amount) when the occupancy status
    read at the first month of the period is owner or tenant, and 0 for any
    other status; the accommodation size is read at the same first month, so
    an owner or tenant pays at least minimal_amount. *)
Theorem housing_tax_by_occupancy_status parameters answer p i sz st :
  nth_error (answer "accommodation_size" (first_month p) false) i = Some (VF sz) ->
  nth_error (answer "housing_occupancy_status" (first_month p) false) i = Some (VE st) ->
  exists x,
    value_at (run_pure answer (housing_tax parameters p)) i = Some x /\
    x == match st with
         | owner | tenant =>
             Qmax (sz * housing_tax_rate (parameters p))
                  (housing_tax_minimal_amount (parameters p))
         | other => 0
         end /\
    (st = owner \/ st = tenant -> housing_tax_minimal_amount (parameters p) <= x).
Proof.
  intros Hsz Hst. eexists; split; [simpl; entries; reflexivity|].
  destruct st; simpl; unfold b2Q; split; intros; try ring.
  - rewrite Qmult_1_l. apply Q.le_max_r.
  - rewrite Qmult_1_l. apply Q.le_max_r.
  - destruct H as [H|H]; discriminate.
Qed.

(** ** Bracket scales *)

Lemma increasing_lower t ts :
  increasing (t :: ts) = true -> forall x, In x ts -> t < x.
Proof.
  revert t; induction ts as [|y ts IH]; intros t Hinc x Hx; [destruct Hx|].
  simpl in Hinc. apply andb_prop in Hinc as [Hty Hinc].
  assert (Hlt : t < y).
  { apply Qnot_le_lt. intros Hle. apply Qle_bool_iff in Hle.
    rewrite Hle in Hty. discriminate. }
  destruct Hx as [<-|Hx]; [exact Hlt|].
  apply Qlt_trans with y; [exact Hlt|]. apply IH; assumption.
Qed.

Lemma valid_scale_thresholds_nonneg s :
  valid_scale s = true -> forall tr, In tr s -> 0 <= fst tr.
Proof.
  destruct s as [|[t0 r0] rest]; simpl; [discriminate|].
  intros Hv tr Htr. apply andb_prop in Hv as [H0 Hinc].
  apply Qeq_bool_iff in H0.
  destruct Htr as [<-|Htr]; simpl.
  - rewrite H0. apply Qle_refl.
  - apply Qlt_le_weak. rewrite <- H0.
    apply (increasing_lower t0 (map fst rest) Hinc).
    apply in_map. exact Htr.
Qed.

Lemma calc_one_nonpos s v :
  (forall tr, In tr s -> 0 <= fst tr) -> v <= 0 -> calc_one s v == 0.
Proof.
  induction s as [|[t r] rest IH]; simpl; intros Hs Hv; [reflexivity|].
  assert (Ht : Qle_bool v t = true).
  { apply Qle_bool_iff. apply Qle_trans with 0; [exact Hv|].
    apply (Hs (t, r)). left; reflexivity. }
  rewrite Ht, IH; [reflexivity| |exact Hv].
  intros tr Htr. apply Hs. right; exact Htr.
Qed.

Lemma Qle_bool_case v t :
  (Qle_bool v t = true /\ v <= t) \/ (Qle_bool v t = false /\ t < v).
Proof.
  destruct (Qle_bool v t) eqn:E; [left|right]; split; auto.
  - apply Qle_bool_iff; exact E.
  - apply Qnot_le_lt. intros H. apply Qle_bool_iff in H. congruence.
Qed.

Lemma calc_one_mono s v1 v2 :
  increasing (map fst s) = true ->
  forallb (fun tr => Qle_bool 0 (snd tr)) s = true ->
  v1 <= v2 -> calc_one s v1 <= calc_one s v2.
Proof.
  induction s as [|[t r] rest IH]; simpl; intros Hinc Hr Hv; [apply Qle_refl|].
  apply andb_prop in Hr as [Hr0 Hr]. apply Qle_bool_iff in Hr0.
  assert (Hrest : calc_one rest v1 <= calc_one rest v2).
  { apply IH; [|exact Hr|exact Hv].
    destruct rest as [|[t' r'] rest]; [reflexivity|].
    simpl in Hinc |- *. apply andb_prop in Hinc as [_ Hinc]. exact Hinc. }
  destruct rest as [|[t' r'] rest'].
  - destruct (Qle_bool_case v1 t) as [[E1 H1]|[E1 H1]];
      destruct (Qle_bool_case v2 t) as [[E2 H2]|[E2 H2]];
      rewrite E1, E2; nra.
  - assert (Htt : t < t').
    { apply (increasing_lower t (map fst ((t', r') :: rest')) Hinc).
      left; reflexivity. }
    destruct (Q.min_spec v1 t') as [[M1 E1']|[M1 E1']];
      destruct (Q.min_spec v2 t') as [[M2 E2']|[M2 E2']];
      destruct (Qle_bool_case v1 t) as [[E1 H1]|[E1 H1]];
      destruct (Qle_bool_case v2 t) as [[E2 H2]|[E2 H2]];
      rewrite E1, E2; nra.
Qed.

(** C2 (as stated): for every well-formed scale and values v1 <= v2 with
    v2 >= 0, calc(S, v1) <= calc(S, v2).  It fails for a scale with a
    negative marginal rate. *)
Lemma calc_monotone_fails_for_negative_rate :
  ~ (forall s v1 v2, valid_scale s = true -> v1 <= v2 -> 0 <= v2 ->
                     calc_one s v1 <= calc_one s v2).
Proof.
  intros H.
  specialize (H negative_rate_scale 0 100 eq_refl).
  assert (Hle : calc_one negative_rate_scale 0 <= calc_one negative_rate_scale 100).
  { apply H; unfold Qle; simpl; lia. }
  revert Hle. vm_compute. intros Hle. apply Hle. reflexivity.
Qed.

(** C2 (amended): for every scale with strictly increasing thresholds
    starting at 0, [calc] applies [calc_one] to each entry, and
    calc(S, v) = 0 for every v <= 0 (so calc(S, 0) = 0); when moreover every
    marginal rate is non-negative, calc(S, v) is non-decreasing in v. *)
Theorem calc_zero_below_and_monotone_nonneg_rates s :
  valid_scale s = true ->
  (forall vs, calc s vs = Ok (map (calc_one s) vs)) /\
  (forall v, v <= 0 -> calc_one s v == 0) /\
  (forallb (fun tr => Qle_bool 0 (snd tr)) s = true ->
   forall v1 v2, v1 <= v2 -> calc_one s v1 <= calc_one s v2).
Proof.
  intros Hv. split; [|split].
  - intros vs. unfold calc. rewrite Hv. reflexivity.
  - intros v Hle. apply calc_one_nonpos; [|exact Hle].
    apply valid_scale_thresholds_nonneg; exact Hv.
  - intros Hr v1 v2 H12. apply calc_one_mono; [|exact Hr|exact H12].
    destruct s as [|[t0 r0] rest]; [discriminate|].
    simpl in Hv. apply andb_prop in Hv as [_ Hinc]. exact Hinc.
Qed.

(** ** Periods *)

(** C8: a Year period has exactly 12 months, in calendar order, each
    enclosed in that year; its first month is its January, and
    this_year(first_month(p)) = p. *)
Theorem year_months_and_first_month_round_trip p :
  unit p = YEAR -> valid_period p = true ->
  List.length (months_of p) = 12%nat /\
  (forall i, (i < 12)%nat ->
     nth_error (months_of p) i =
     Some (mkPeriod MONTH (start_year p) (Z.of_nat (S i)))) /\
  (forall m, In m (months_of p) -> this_year m = p) /\
  first_month p = mkPeriod MONTH (start_year p) 1 /\
  this_year (first_month p) = p.
Proof.
  destruct p as [u y m]; cbn [unit start_year start_month]. intros -> Hv.
  unfold valid_period in Hv; cbn [unit start_month] in Hv. apply Z.eqb_eq in Hv. subst m.
  split; [reflexivity|split; [|split; [|split; reflexivity]]].
  - intros i Hi. unfold months_of.
    rewrite nth_error_map, nth_error_seq_lt by exact Hi. reflexivity.
  - intros mo Hin. unfold months_of in Hin.
    apply in_map_iff in Hin as [k [<- _]]. reflexivity.
Qed.

(** ** Claims about the engine *)

(** C4: for every person and Month period, [taxable_income] is
    salary + capital_returns + pension + self_employment_taxable_income of
    the period; with a salary of 3000 for the month and nothing else
    supplied, a run gives [taxable_income] = 3000. *)
Theorem taxable_income_is_sum_of_incomes answer p i s c pn se :
  nth_error (answer "salary" p false) i = Some (VF s) ->
  nth_error (answer "capital_returns" p false) i = Some (VF c) ->
  nth_error (answer "pension" p false) i = Some (VF pn) ->
  nth_error (answer "self_employment_taxable_income" p false) i = Some (VF se) ->
  value_at (run_pure answer (taxable_income p)) i = Some (s + c + pn + se) /\
  exists x,
    value_at (calculate single_system single_pop salary_only_inputs 10
                "taxable_income" january_2024) 0 = Some x /\ x == 3000.
Proof.
  intros Hs Hc Hp Hse. split.
  - apply taxable_income_entry_sum; assumption.
  - eexists; split; [vm_compute; reflexivity|]. vm_compute. reflexivity.
Qed.

Lemma unit_eqb_refl u : unit_eqb u u = true.
Proof. destruct u; reflexivity. Qed.

Lemma unit_eqb_eq a b : unit_eqb a b = true <-> a = b.
Proof. destruct a, b; simpl; split; congruence. Qed.

Lemma key_eqb_eq a b : key_eqb a b = true <-> a = b.
Proof.
  destruct a as [n [u y m]], b as [n' [u' y' m']]. unfold key_eqb, period_eqb; simpl.
  rewrite !andb_true_iff, String.eqb_eq, unit_eqb_eq, !Z.eqb_eq.
  split; [intros [-> [[-> ->] ->]]; reflexivity|].
  intros H; injection H as -> -> -> ->; tauto.
Qed.

Lemma existsb_key_in k l : existsb (key_eqb k) l = true <-> In k l.
Proof.
  rewrite existsb_exists. split.
  - intros [x [Hx Heq]]. apply key_eqb_eq in Heq. subst. exact Hx.
  - intros Hin. exists k. split; [exact Hin|]. apply key_eqb_eq. reflexivity.
Qed.

Lemma find_variable_name registry name v :
  find_variable registry name = Some v -> var_name v = name.
Proof.
  unfold find_variable. intros H. apply find_some in H as [_ H].
  apply String.eqb_eq. exact H.
Qed.

(** C6 (as stated): a formula-less variable at a period absent from the
    inputs evaluates to its default.  A salary declared for the year is
    spread over its months, [omzet] declared for the year fails for its
    months with a period mismatch, and a Month variable requested for a year
    is a period mismatch. *)
Lemma default_fails_for_yearly_input_and_mismatched_period :
  assoc ("salary", january_2024) yearly_salary_inputs = None /\
  calculate single_system single_pop yearly_salary_inputs 5 "salary" january_2024
    = Ok [VF (1200 # 12)] /\
  calculate single_system single_pop yearly_salary_inputs 5 "salary" january_2024
    <> Ok [VF 0] /\
  assoc ("omzet", january_2024) yearly_omzet_inputs = None /\
  calculate single_system single_pop yearly_omzet_inputs 5 "omzet" january_2024
    = Err PeriodMismatch /\
  calculate single_system single_pop [] 5 "omzet" (year 2024) = Err PeriodMismatch.
Proof.
  split; [reflexivity|split; [vm_compute; reflexivity|split]].
  - vm_compute. intros H. discriminate H.
  - split; [reflexivity|split]; vm_compute; reflexivity.
Qed.

(** C6 (amended): for a formula-less variable, not yet cached nor being
    computed:
    - requested at a period of its own granularity with no input for that
      period and, for a Month request, none for the enclosing year either,
      it evaluates to the default of its value type for every entity of its
      kind;
    - requested at a month with only a Year-level input x, it evaluates to
      x / 12 when it is period-divisible and fails with PeriodMismatch
      otherwise;
    - requested at the other granularity, it fails with PeriodMismatch.
    [pension], whose formula returns 0, gives 0.0 for every person. *)
Theorem input_variable_without_value_is_default parameters pop inputs fuel
    name p v st :
  find_variable (tax_benefit_system parameters pop) name = Some v ->
  formula v = None ->
  assoc (name, p) (cache st) = None ->
  existsb (key_eqb (name, p)) (pending st) = false ->
  (unit p = definition_period v ->
   assoc (name, p) inputs = None ->
   (unit p = MONTH -> assoc (name, this_year p) inputs = None) ->
   fst (evaluate (tax_benefit_system parameters pop) pop inputs (S fuel) name p st)
     = Ok (repeat (default_value (var_type v)) (entity_count pop (entity v)))) /\
  (forall x,
   unit p = definition_period v -> unit p = MONTH ->
   assoc (name, p) inputs = None ->
   assoc (name, this_year p) inputs = Some x ->
   fst (evaluate (tax_benefit_system parameters pop) pop inputs (S fuel) name p st)
     = if set_input_divide_by_period v then Ok (divide12 x) else Err PeriodMismatch) /\
  (unit p <> definition_period v ->
   fst (evaluate (tax_benefit_system parameters pop) pop inputs (S fuel) name p st)
     = Err PeriodMismatch) /\
  (unit p = MONTH ->
   calculate (tax_benefit_system parameters pop) pop inputs (S fuel) "pension" p
     = Ok (repeat (VF 0) (entity_count pop Person))).
Proof.
  intros Hv Hf Hc Hp. split; [|split; [|split]].
  - intros Hu Hin Hy. cbn [evaluate]. rewrite Hc, Hv, Hu, unit_eqb_refl. cbn [negb].
    rewrite Hp, Hf.
    unfold read_input. rewrite (find_variable_name _ _ _ Hv), Hin.
    destruct (unit_eqb (unit p) MONTH) eqn:Em; [|reflexivity].
    apply unit_eqb_eq in Em. rewrite (Hy Em). reflexivity.
  - intros x Hu Hm Hin Hy. cbn [evaluate]. rewrite Hc, Hv, Hu, unit_eqb_refl. cbn [negb].
    rewrite Hp, Hf.
    unfold read_input. rewrite (find_variable_name _ _ _ Hv), Hin.
    rewrite Hm. cbn [unit_eqb]. rewrite Hy.
    destruct (set_input_divide_by_period v); reflexivity.
  - intros Hu. cbn [evaluate]. rewrite Hc, Hv.
    destruct (unit_eqb (unit p) (definition_period v)) eqn:E.
    + apply unit_eqb_eq in E. contradiction.
    + reflexivity.
  - intros Hm. destruct p as [u y mo]; simpl in Hm; subst u. reflexivity.
Qed.

(** ** Re-entry *)

Lemma keeps_pending_refl st : keeps_pending st st.
Proof. split; [exists []; reflexivity|auto]. Qed.

Lemma keeps_pending_trans st1 st2 st3 :
  keeps_pending st1 st2 -> keeps_pending st2 st3 -> keeps_pending st1 st3.
Proof.
  intros [[e1 H1] C1] [[e2 H2] C2]. split.
  - exists (e2 ++ e1)%list. rewrite H2, H1, app_assoc. reflexivity.
  - intros k Hk Hc. apply C2; [|apply C1; assumption].
    rewrite H1. apply in_or_app. right; exact Hk.
Qed.

Lemma run_tree_keeps_pending ask :
  (forall n q d st r st', ask n q d st = (r, st') -> keeps_pending st st') ->
  forall t st r st', run_tree ask t st = (r, st') -> keeps_pending st st'.
Proof.
  intros Hask t. induction t as [v|e|n q d kont IH]; simpl; intros st r st' H.
  - injection H as _ <-. apply keeps_pending_refl.
  - injection H as _ <-. apply keeps_pending_refl.
  - destruct (ask n q d st) as [[v|e] st1] eqn:E.
    + apply keeps_pending_trans with st1; [eapply Hask; exact E|].
      eapply IH; exact H.
    + injection H as _ <-. eapply Hask; exact E.
Qed.

Lemma request_keeps_pending registry eval :
  (forall n q st r st', eval n q st = (r, st') -> keeps_pending st st') ->
  forall n q d st r st', request registry eval n q d st = (r, st') ->
  keeps_pending st st'.
Proof.
  intros Heval n q d st r st' H. unfold request in H.
  destruct (d && divide_applies registry n q).
  - destruct (eval n (this_year q) st) as [r1 st1] eqn:E.
    injection H as _ <-. eapply Heval; exact E.
  - eapply Heval; exact H.
Qed.

Lemma not_pending_not_key k n p (l : list key) :
  existsb (key_eqb (n, p)) l = false -> In k l -> key_eqb k (n, p) = false.
Proof.
  intros Hp Hk. destruct (key_eqb k (n, p)) eqn:E; [|reflexivity].
  apply key_eqb_eq in E. subst k.
  apply existsb_key_in in Hk. congruence.
Qed.

(** Evaluation never caches a pair while it is pending. *)
Lemma evaluate_keeps_pending registry pop inputs fuel :
  forall n p st r st',
  evaluate registry pop inputs fuel n p st = (r, st') -> keeps_pending st st'.
Proof.
  induction fuel as [|fuel IH]; intros n p st r st' H.
  - injection H as _ <-. apply keeps_pending_refl.
  - cbn [evaluate] in H.
    destruct (assoc (n, p) (cache st)) eqn:Ec.
    { injection H as _ <-. apply keeps_pending_refl. }
    destruct (find_variable registry n) as [var|] eqn:Ev.
    2: { injection H as _ <-. apply keeps_pending_refl. }
    destruct (negb (unit_eqb (unit p) (definition_period var))).
    { injection H as _ <-. apply keeps_pending_refl. }
    destruct (existsb (key_eqb (n, p)) (pending st)) eqn:Ep.
    { injection H as _ <-. apply keeps_pending_refl. }
    destruct (formula var) as [f|].
    + set (st1 := mkState (cache st) ((n, p) :: pending st)) in H.
      assert (K1 : keeps_pending st st1).
      { split; [exists [(n, p)]; reflexivity|]. intros k _ Hc. exact Hc. }
      destruct (run_tree (request registry (evaluate registry pop inputs fuel))
                  (f p) st1) as [[v|e] st2] eqn:Er.
      * assert (K2 : keeps_pending st1 st2).
        { eapply run_tree_keeps_pending; [|exact Er].
          apply request_keeps_pending. intros n' q st0 r0 st0' E0.
          eapply IH; exact E0. }
        injection H as _ <-. split; [exists []; reflexivity|].
        intros k Hk Hc. simpl.
        rewrite (not_pending_not_key k n p (pending st) Ep Hk).
        destruct K1 as [_ C1], K2 as [_ C2]. apply C2; [|apply C1; assumption].
        simpl. right; exact Hk.
      * injection H as _ <-. apply keeps_pending_trans with st1; [exact K1|].
        eapply run_tree_keeps_pending; [|exact Er].
        apply request_keeps_pending. intros n' q st0 r0 st0' E0.
        eapply IH; exact E0.
    + destruct (read_input pop inputs var p) as [v|e].
      * injection H as _ <-. split; [exists []; reflexivity|].
        intros k Hk Hc. simpl.
        rewrite (not_pending_not_key k n p (pending st) Ep Hk). exact Hc.
      * injection H as _ <-. apply keeps_pending_refl.
Qed.

(** A pending, uncached pair is refused. *)
Lemma evaluate_pending_is_cyclic registry pop inputs fuel n p st v :
  find_variable registry n = Some v ->
  unit p = definition_period v ->
  assoc (n, p) (cache st) = None ->
  In (n, p) (pending st) ->
  evaluate registry pop inputs (S fuel) n p st = (Err CyclicDependency, st).
Proof.
  intros Hv Hu Hc Hp. cbn [evaluate]. rewrite Hc, Hv, Hu, unit_eqb_refl.
  cbn [negb]. apply existsb_key_in in Hp. rewrite Hp. reflexivity.
Qed.

Lemma request_chain_cyclic registry pop inputs target ks :
  forall k st fuel,
  request_chain registry k ks target ->
  (exists v, find_variable registry (fst target) = Some v /\
             unit (snd target) = definition_period v) ->
  Forall (fun k' => assoc k' (cache st) = None) (target :: k :: ks) ->
  (In target (pending st) \/ target = k) ->
  (List.length ks + 2 <= fuel)%nat ->
  fst (evaluate registry pop inputs fuel (fst k) (snd k) st) = Err CyclicDependency.
Proof.
  destruct target as [tn tp].
  induction ks as [|[n' p'] ks IH]; intros [n p] st fuel Hch [tv [Htv Htu]] Hc Hpt Hf;
    destruct fuel as [|fuel]; try (simpl in Hf; lia);
    pose proof (Forall_inv Hc) as Ht;
    pose proof (Forall_inv (Forall_inv_tail Hc)) as Hnp;
    pose proof (Forall_inv_tail (Forall_inv_tail Hc)) as Hks;
    cbn [fst snd] in *.
  - destruct Hch as [v [f [kont [Hv [Hu [Hf' Hk]]]]]]. cbn [fst snd] in *.
    cbn [evaluate]. rewrite Hnp, Hv, Hu, unit_eqb_refl. cbn [negb].
    destruct (existsb (key_eqb (n, p)) (pending st)) eqn:Ep; [reflexivity|].
    rewrite Hf', Hk. cbn [run_tree fst snd]. unfold request at 1. cbn [andb].
    destruct fuel as [|fuel]; [simpl in Hf; lia|].
    rewrite (evaluate_pending_is_cyclic registry pop inputs fuel tn tp
               (mkState (cache st) ((n, p) :: pending st)) tv Htv Htu Ht).
    + reflexivity.
    + destruct Hpt as [H|H]; [right; exact H|left; symmetry; exact H].
  - destruct Hch as [[v [f [kont [Hv [Hu [Hf' Hk]]]]]] Hch]. cbn [fst snd] in *.
    cbn [evaluate]. rewrite Hnp, Hv, Hu, unit_eqb_refl. cbn [negb].
    destruct (existsb (key_eqb (n, p)) (pending st)) eqn:Ep; [reflexivity|].
    rewrite Hf', Hk. cbn [run_tree fst snd]. unfold request at 1. cbn [andb].
    set (st1 := mkState (cache st) ((n, p) :: pending st)).
    destruct (evaluate registry pop inputs fuel n' p' st1) as [r st2] eqn:E.
    assert (Hr : fst (evaluate registry pop inputs fuel (fst (n', p')) (snd (n', p')) st1)
                 = Err CyclicDependency).
    { apply IH.
      - exact Hch.
      - exists tv. split; assumption.
      - exact (Forall_cons _ Ht Hks).
      - left. simpl. destruct Hpt as [H|H]; [right; exact H|left; symmetry; exact H].
      - simpl in Hf. lia. }
    cbn [fst snd] in Hr. rewrite E in Hr. cbn [fst] in Hr. subst r. reflexivity.
Qed.

(** C7: a pair that is re-entered while pending and uncached is refused
    with CyclicDependency; while a pair is being computed it stays pending and
    uncached, so any nested request for it is refused, and the error aborts
    every enclosing computation; in particular a cycle of requests
    (each formula on it asking first for the next pair, the last for the
    first) makes the run fail with CyclicDependency within a bounded number
    of nested calls. *)
Theorem reentry_raises_cyclic_dependency registry pop inputs :
  (forall fuel n p st v,
     find_variable registry n = Some v ->
     unit p = definition_period v ->
     assoc (n, p) (cache st) = None ->
     In (n, p) (pending st) ->
     evaluate registry pop inputs (S fuel) n p st = (Err CyclicDependency, st)) /\
  (forall fuel n p st r st',
     evaluate registry pop inputs fuel n p st = (r, st') -> keeps_pending st st') /\
  (forall k ks st fuel,
     request_chain registry k ks k ->
     Forall (fun k' => assoc k' (cache st) = None) (k :: ks) ->
     (List.length ks + 2 <= fuel)%nat ->
     fst (evaluate registry pop inputs fuel (fst k) (snd k) st) = Err CyclicDependency).
Proof.
  split; [|split].
  - intros. eapply evaluate_pending_is_cyclic; eassumption.
  - intros. eapply evaluate_keeps_pending; eassumption.
  - intros k ks st fuel Hch Hc Hf.
    apply (request_chain_cyclic registry pop inputs k ks k st fuel Hch).
    + destruct ks as [|k' ks]; simpl in Hch;
        [|destruct Hch as [Hch _]];
        destruct Hch as [v [f [kont [Hv [Hu _]]]]]; exists v; split; assumption.
    + constructor; [exact (Forall_inv Hc)|exact Hc].
    + right; reflexivity.
    + exact Hf.
Qed.

(** ** Year values consumed by monthly formulas *)

(** C3: in every month m of a Year period y, the housing tax a monthly
    formula consumes is housing_tax(y) / 12: the engine answers the
    [DIVIDE] request of [disposable_income] at m by evaluating
    [housing_tax] at y and dividing by 12, and [total_taxes] asks for
    [housing_tax] at [this_year m] = y and divides by 12; both give, for
    household j, the same share h / 12 in each of the 12 months. *)
Theorem housing_tax_consumed_as_yearly_share parameters pop values y m j
    h s se c pn it ss :
  unit y = YEAR -> valid_period y = true -> In m (months_of y) ->
  nth_error (values "housing_tax" y) j = Some (VF h) ->
  nth_error (hsum pop (floats (values "salary" m))) j = Some s ->
  nth_error (hsum pop (floats (values "self_employment_taxable_income" m))) j
    = Some se ->
  nth_error (hsum pop (floats (values "capital_returns" m))) j = Some c ->
  nth_error (hsum pop (floats (values "pension" m))) j = Some pn ->
  nth_error (hsum pop (floats (values "income_tax" m))) j = Some it ->
  nth_error (hsum pop (floats (values "social_security_contribution" m))) j
    = Some ss ->
  (forall inputs fuel st,
     request (tax_benefit_system parameters pop)
       (evaluate (tax_benefit_system parameters pop) pop inputs fuel)
       "housing_tax" m true st =
     let (r, st') :=
       evaluate (tax_benefit_system parameters pop) pop inputs fuel "housing_tax" y st
     in (res_map divide12 r, st')) /\
  answer_of (tax_benefit_system parameters pop) values "housing_tax" m true
    = divide12 (values "housing_tax" y) /\
  value_at (run_pure (answer_of (tax_benefit_system parameters pop) values)
              (disposable_income pop m)) j
    = Some (s + se + c + pn - it - h / 12 - ss) /\
  value_at (run_pure (answer_of (tax_benefit_system parameters pop) values)
              (total_taxes pop m)) j
    = Some (it + ss + h / 12).
Proof.
  destruct y as [u yy mo]; cbn [unit start_year start_month]. intros -> Hv Hm.
  unfold valid_period in Hv; cbn [unit start_month] in Hv.
  apply Z.eqb_eq in Hv. subst mo.
  unfold months_of in Hm. apply in_map_iff in Hm as [k [<- _]].
  cbn [start_year] in *.
  intros Hh Hs Hse Hc Hpn Hit Hss.
  split; [|split; [|split]].
  - intros inputs fuel st. reflexivity.
  - reflexivity.
  - simpl. unfold answer_of, divide_applies, divide12, this_year, year. simpl.
    entries. reflexivity.
  - simpl. unfold answer_of, divide_applies, this_year, year. simpl.
    entries. reflexivity.
Qed.

(** ** Witnesses: each theorem above at a concrete input *)

Lemma income_tax_is_clamped_gross_minus_credits_witness :
  exists S x,
    (S = income_tax_brackets_aow (sample_params january_2024) \/
     S = income_tax_brackets (sample_params january_2024)) /\
    value_at (run_pure sample_answer (income_tax sample_params january_2024)) 0
      = Some x /\
    x == Qmax (calc_one S 3000 - (100 + 50)) 0 /\ 0 <= x.
Proof.
  apply (income_tax_is_clamped_gross_minus_credits sample_params sample_answer
           january_2024 0 3000 70 100 50); reflexivity.
Defined.

Lemma income_tax_scale_selected_by_age_witness :
  (age_of_retirement (sample_params january_2024) <= 70 ->
   value_at (run_pure sample_answer (income_tax sample_params january_2024)) 0 =
   Some (Qmax (calc_one (income_tax_brackets_aow (sample_params january_2024)) 3000
               - 100 - 50) 0)) /\
  (70 < age_of_retirement (sample_params january_2024) ->
   value_at (run_pure sample_answer (income_tax sample_params january_2024)) 0 =
   Some (Qmax (calc_one (income_tax_brackets (sample_params january_2024)) 3000
               - 100 - 50) 0)).
Proof.
  apply (income_tax_scale_selected_by_age sample_params sample_answer
           january_2024 0 3000 70 100 50); reflexivity.
Defined.

Lemma taxable_income_is_sum_of_incomes_witness :
  value_at (run_pure sample_answer (taxable_income january_2024)) 0
    = Some (3000 + (-500) + 0 + 0) /\
  exists x,
    value_at (calculate single_system single_pop salary_only_inputs 10
                "taxable_income" january_2024) 0 = Some x /\ x == 3000.
Proof.
  apply (taxable_income_is_sum_of_incomes sample_answer january_2024 0
           3000 (-500) 0 0); reflexivity.
Defined.

Lemma clamps_only_where_formulas_state_witness :
  (exists x,
     value_at (run_pure sample_answer (income_tax sample_params january_2024)) 0
       = Some x /\ 0 <= x) /\
  (exists y,
     value_at (run_pure sample_answer (self_employment_taxable_income january_2024)) 0
       = Some y /\ y == Qmax (400 - 100 - 42) 0 /\ 0 <= y) /\
  (exists v,
     value_at (run_pure sample_answer (taxable_income january_2024)) 0 = Some v /\
     v == 3000 + (-500) + 0 + 0 /\ (3000 + (-500) + 0 + 0 < 0 -> v < 0)).
Proof.
  apply (clamps_only_where_formulas_state sample_params sample_answer january_2024 0
           3000 70 100 50 400 100 42 3000 (-500) 0 0); reflexivity.
Defined.

Lemma housing_tax_by_occupancy_status_witness :
  exists x,
    value_at (run_pure sample_answer (housing_tax sample_params (year 2024))) 0
      = Some x /\
    x == Qmax (0 * housing_tax_rate (sample_params (year 2024)))
              (housing_tax_minimal_amount (sample_params (year 2024))) /\
    (owner = owner \/ owner = tenant ->
     housing_tax_minimal_amount (sample_params (year 2024)) <= x).
Proof.
  apply (housing_tax_by_occupancy_status sample_params sample_answer (year 2024)
           0 0 owner); reflexivity.
Defined.

Lemma calc_zero_below_and_monotone_nonneg_rates_witness :
  (forall vs, calc sample_scale vs = Ok (map (calc_one sample_scale) vs)) /\
  (forall v, v <= 0 -> calc_one sample_scale v == 0) /\
  (forallb (fun tr => Qle_bool 0 (snd tr)) sample_scale = true ->
   forall v1 v2, v1 <= v2 -> calc_one sample_scale v1 <= calc_one sample_scale v2).
Proof.
  apply (calc_zero_below_and_monotone_nonneg_rates sample_scale); reflexivity.
Defined.

Lemma year_months_and_first_month_round_trip_witness :
  List.length (months_of (year 2024)) = 12%nat /\
  (forall i, (i < 12)%nat ->
     nth_error (months_of (year 2024)) i =
     Some (mkPeriod MONTH (start_year (year 2024)) (Z.of_nat (S i)))) /\
  (forall m, In m (months_of (year 2024)) -> this_year m = year 2024) /\
  first_month (year 2024) = mkPeriod MONTH (start_year (year 2024)) 1 /\
  this_year (first_month (year 2024)) = year 2024.
Proof.
  apply (year_months_and_first_month_round_trip (year 2024)); reflexivity.
Defined.

Lemma input_variable_without_value_is_default_witness :
  fst (evaluate single_system single_pop [] 1 "salary" january_2024 empty_state)
    = Ok (repeat (VF 0) 1) /\
  fst (evaluate single_system single_pop yearly_salary_inputs 1 "salary" january_2024
         empty_state)
    = Ok (divide12 [VF 1200]) /\
  fst (evaluate single_system single_pop yearly_omzet_inputs 1 "omzet" january_2024
         empty_state)
    = Err PeriodMismatch /\
  fst (evaluate single_system single_pop [] 1 "omzet" (year 2024) empty_state)
    = Err PeriodMismatch.
Proof.
  split; [|split; [|split]].
  - apply (proj1 (input_variable_without_value_is_default sample_params single_pop [] 0
             "salary" january_2024 (mkVariable "salary" Person Float MONTH true None)
             empty_state eq_refl eq_refl eq_refl eq_refl));
      reflexivity.
  - apply (proj1 (proj2 (input_variable_without_value_is_default sample_params
             single_pop yearly_salary_inputs 0 "salary" january_2024
             (mkVariable "salary" Person Float MONTH true None)
             empty_state eq_refl eq_refl eq_refl eq_refl)) [VF 1200]);
      reflexivity.
  - apply (proj1 (proj2 (input_variable_without_value_is_default sample_params
             single_pop yearly_omzet_inputs 0 "omzet" january_2024
             (mkVariable "omzet" Person Float MONTH false None)
             empty_state eq_refl eq_refl eq_refl eq_refl)) [VF 1200]);
      reflexivity.
  - apply (proj1 (proj2 (proj2 (input_variable_without_value_is_default sample_params
             single_pop [] 0 "omzet" (year 2024)
             (mkVariable "omzet" Person Float MONTH false None)
             empty_state eq_refl eq_refl eq_refl eq_refl)))).
    simpl. discriminate.
Defined.

Lemma reentry_raises_cyclic_dependency_witness :
  fst (evaluate cyclic_registry single_pop [] 3%nat "a" january_2024 empty_state)
    = Err CyclicDependency.
Proof.
  apply (proj2 (proj2 (reentry_raises_cyclic_dependency cyclic_registry single_pop []))
           ("a", january_2024) [("b", january_2024)] empty_state 3%nat).
  - split; do 3 eexists; repeat split; reflexivity.
  - repeat constructor.
  - simpl. lia.
Defined.

Lemma housing_tax_consumed_as_yearly_share_witness :
  (forall inputs fuel st,
     request (tax_benefit_system sample_params sample_pop)
       (evaluate (tax_benefit_system sample_params sample_pop) sample_pop inputs fuel)
       "housing_tax" january_2024 true st =
     let (r, st') :=
       evaluate (tax_benefit_system sample_params sample_pop) sample_pop inputs fuel
         "housing_tax" (year 2024) st
     in (res_map divide12 r, st')) /\
  answer_of (tax_benefit_system sample_params sample_pop) sample_values
    "housing_tax" january_2024 true
    = divide12 (sample_values "housing_tax" (year 2024)) /\
  value_at (run_pure (answer_of (tax_benefit_system sample_params sample_pop)
                        sample_values)
              (disposable_income sample_pop january_2024)) 0
    = Some (150 + 150 + 150 + 150 - 150 - 1200 / 12 - 150) /\
  value_at (run_pure (answer_of (tax_benefit_system sample_params sample_pop)
                        sample_values)
              (total_taxes sample_pop january_2024)) 0
    = Some (150 + 150 + 1200 / 12).
Proof.
  apply (housing_tax_consumed_as_yearly_share sample_params sample_pop sample_values
           (year 2024) january_2024 0 1200 150 150 150 150 150 150);
    try reflexivity.
  simpl. left. reflexivity.
Defined.

(** ** Further properties of the formulas *)

(** Splits every [Qmax] and [Qmin] of the goal and the hypotheses into its
    two cases. *)
Ltac split_max a b :=
  lazymatch goal with
  | _ : Qmax a b == _ |- _ => fail
  | _ => let E := fresh "E" in let F := fresh "F" in
         destruct (Q.max_spec a b) as [[E F]|[E F]]; rewrite F in *
  end.

Ltac split_min a b :=
  lazymatch goal with
  | _ : Qmin a b == _ |- _ => fail
  | _ => let E := fresh "E" in let F := fresh "F" in
         destruct (Q.min_spec a b) as [[E F]|[E F]]; rewrite F in *
  end.

Ltac split_minmax :=
  repeat match goal with
  | |- context [Qmax ?a ?b] => split_max a b
  | |- context [Qmin ?a ?b] => split_min a b
  | _ : context [Qmax ?a ?b] |- _ => split_max a b
  | _ : context [Qmin ?a ?b] |- _ => split_min a b
  end.

Ltac by_twelfths :=
  unfold Qdiv in *; change (/ 12) with (1 # 12) in *.

Lemma valid_scale_increasing s :
  valid_scale s = true -> increasing (map fst s) = true.
Proof.
  destruct s as [|[t0 r0] rest]; [discriminate|].
  simpl. intros Hv. apply andb_prop in Hv as [_ Hinc]. exact Hinc.
Qed.

Lemma calc_one_valid_nonpos s v :
  valid_scale s = true -> v <= 0 -> calc_one s v == 0.
Proof.
  intros Hv Hle. apply calc_one_nonpos; [|exact Hle].
  apply valid_scale_thresholds_nonneg; exact Hv.
Qed.

(** The entry of a person in [mkb_winstvrijstelling]. *)
Lemma mkb_winstvrijstelling_entry parameters answer p i w z :
  nth_error (answer "winst_voor_aftrek" p false) i = Some (VF w) ->
  nth_error (answer "zelfstandigenaftrek" p false) i = Some (VF z) ->
  value_at (run_pure answer (mkb_winstvrijstelling parameters p)) i =
  Some (Qmax (w - z) 0 * mkb_winstvrijstelling_rate (parameters p)).
Proof. intros Hw Hz. simpl. entries. reflexivity. Qed.

Lemma sum_map_ext {T} (l : list T) (f g : T -> Q) :
  (forall x, In x l -> f x == g x) ->
  fold_right Qplus 0 (map f l) == fold_right Qplus 0 (map g l).
Proof.
  induction l as [|x l IH]; simpl; intros H; [reflexivity|].
  rewrite (H x (or_introl eq_refl)), IH; [reflexivity|].
  intros y Hy. apply H. right; exact Hy.
Qed.

Lemma sum_map_plus {T} (l : list T) (f g : T -> Q) :
  fold_right Qplus 0 (map (fun x => f x + g x) l) ==
  fold_right Qplus 0 (map f l) + fold_right Qplus 0 (map g l).
Proof. induction l as [|x l IH]; simpl; [reflexivity|]. rewrite IH. ring. Qed.

Lemma sum_map_const {T} (l : list T) (f : T -> Q) c :
  (forall x, In x l -> f x == c) ->
  fold_right Qplus 0 (map f l) == inject_Z (Z.of_nat (List.length l)) * c.
Proof.
  induction l as [|x l IH]; intros H; [reflexivity|].
  cbn [map fold_right List.length].
  rewrite (H x (or_introl eq_refl)), IH by (intros y Hy; apply H; right; exact Hy).
  rewrite Nat2Z.inj_succ, <- Z.add_1_l, inject_Z_plus. ring.
Qed.

(** The indicator of a household index, summed over the households. *)
Lemma sum_indicator h x start n :
  (start <= h < start + n)%nat ->
  fold_right Qplus 0 (map (fun j => if Nat.eqb h j then x else 0) (seq start n)) == x.
Proof.
  revert start; induction n as [|n IH]; intros start Hh; [lia|].
  simpl. destruct (Nat.eqb_spec h start) as [->|Hne].
  - rewrite (sum_map_ext _ _ (fun _ => 0)).
    + rewrite (sum_map_const _ _ 0) by (intros; reflexivity). ring.
    + intros j Hj. apply in_seq in Hj.
      destruct (Nat.eqb_spec start j); [lia|reflexivity].
  - rewrite IH by lia. ring.
Qed.

(** Summing the per-household sums gives the sum over all members, when
    every member belongs to one of the households. *)
Lemma household_sums_total (l : list (nat * Q)) n :
  (forall h x, In (h, x) l -> (h < n)%nat) ->
  fold_right Qplus 0
    (map (fun j => fold_right Qplus 0
                     (map snd (filter (fun hx => Nat.eqb (fst hx) j) l)))
         (seq 0 n))
  == fold_right Qplus 0 (map snd l).
Proof.
  induction l as [|[h x] l IH]; intros Hl; simpl.
  - rewrite (sum_map_const _ _ 0) by (intros; reflexivity). ring.
  - rewrite (sum_map_ext _ _
               (fun j => (if Nat.eqb h j then x else 0) +
                         fold_right Qplus 0
                           (map snd (filter (fun hx => Nat.eqb (fst hx) j) l)))).
    + rewrite sum_map_plus, sum_indicator, IH.
      * reflexivity.
      * intros h' x' Hin. apply (Hl h' x'). right; exact Hin.
      * split; [lia|]. apply (Hl h x). left; reflexivity.
    + intros j _. destruct (Nat.eqb h j); simpl; ring.
Qed.

Lemma map_snd_combine {A B} (a : list A) (b : list B) :
  List.length a = List.length b -> map snd (combine a b) = b.
Proof.
  revert b; induction a as [|x a IH]; intros [|y b] H; simpl in *;
    try discriminate; [reflexivity|].
  f_equal. apply IH. lia.
Qed.

Lemma floats_of_floats v : floats (of_floats v) = v.
Proof.
  unfold floats, of_floats. rewrite map_map. apply map_id.
Qed.

(** X1: a person's [algemene_heffingskorting] is
    max(max_credit - max(12 t - threshold, 0) * phase_out_rate, 0) / 12 for
    the monthly taxable income t; it is never negative, never above
    max(max_credit, 0) / 12 when the phase-out rate is non-negative, and is
    exactly that when the annual income is at most the threshold. *)
Theorem algemene_heffingskorting_bounds parameters answer p i t :
  nth_error (answer "taxable_income" p false) i = Some (VF t) ->
  exists x,
    value_at (run_pure answer (algemene_heffingskorting parameters p)) i = Some x /\
    x == Qmax (algemene_heffingskorting_max (parameters p)
               - Qmax (t * 12 - algemene_heffingskorting_income_threshold (parameters p)) 0
                 * algemene_heffingskorting_phase_out_rate (parameters p)) 0 / 12 /\
    0 <= x /\
    (0 <= algemene_heffingskorting_phase_out_rate (parameters p) ->
     x <= Qmax (algemene_heffingskorting_max (parameters p)) 0 / 12) /\
    (t * 12 <= algemene_heffingskorting_income_threshold (parameters p) ->
     x == Qmax (algemene_heffingskorting_max (parameters p)) 0 / 12).
Proof.
  intros Ht. eexists; split; [simpl; entries; reflexivity|].
  split; [reflexivity|]. split; [|split].
  - split_minmax; by_twelfths; nra.
  - intros Hr. split_minmax; by_twelfths; nra.
  - intros Hle.
    rewrite (Q.max_r (t * 12 - algemene_heffingskorting_income_threshold (parameters p)) 0)
      by lra.
    split_minmax; by_twelfths; nra.
Qed.

(** X2: with a non-negative phase-out rate, [algemene_heffingskorting] never
    increases with the person's taxable income. *)
Theorem algemene_heffingskorting_non_increasing parameters answer1 answer2 p i t1 t2 :
  0 <= algemene_heffingskorting_phase_out_rate (parameters p) ->
  t1 <= t2 ->
  nth_error (answer1 "taxable_income" p false) i = Some (VF t1) ->
  nth_error (answer2 "taxable_income" p false) i = Some (VF t2) ->
  exists x1 x2,
    value_at (run_pure answer1 (algemene_heffingskorting parameters p)) i = Some x1 /\
    value_at (run_pure answer2 (algemene_heffingskorting parameters p)) i = Some x2 /\
    x2 <= x1.
Proof.
  intros Hr H12 H1 H2. do 2 eexists.
  split; [simpl; entries; reflexivity|].
  split; [simpl; entries; reflexivity|].
  split_minmax; by_twelfths; nra.
Qed.

(** X3: a person's [arbeidskorting] is
    max(0, min(12 l * buildup_rate, max_credit) - max(12 l - max_income, 0)
    * phase_out_rate) / 12 for the monthly labour income l; it is never
    negative, never above max(max_credit, 0) / 12 when the phase-out rate is
    non-negative, 0 for a non-positive labour income when both rates are
    non-negative, and not phased out while 12 l <= max_income. *)
Theorem arbeidskorting_bounds parameters answer p i l :
  nth_error (answer "arbeidsinkomen" p false) i = Some (VF l) ->
  exists x,
    value_at (run_pure answer (arbeidskorting parameters p)) i = Some x /\
    x == Qmax 0 (Qmin (l * 12 * arbeidskorting_buildup_rate (parameters p))
                      (arbeidskorting_max (parameters p))
                 - Qmax (l * 12 - arbeidskorting_max_income (parameters p)) 0
                   * arbeidskorting_phase_out_rate (parameters p)) / 12 /\
    0 <= x /\
    (0 <= arbeidskorting_phase_out_rate (parameters p) ->
     x <= Qmax (arbeidskorting_max (parameters p)) 0 / 12) /\
    (l <= 0 -> 0 <= arbeidskorting_buildup_rate (parameters p) ->
     0 <= arbeidskorting_phase_out_rate (parameters p) -> x == 0) /\
    (l * 12 <= arbeidskorting_max_income (parameters p) ->
     x == Qmax 0 (Qmin (l * 12 * arbeidskorting_buildup_rate (parameters p))
                       (arbeidskorting_max (parameters p))) / 12).
Proof.
  intros Hl. eexists; split; [simpl; entries; reflexivity|].
  split; [reflexivity|]. split; [|split; [|split]].
  - split_minmax; by_twelfths; nra.
  - intros Hr. split_minmax; by_twelfths; nra.
  - intros Hle Hb Hr. split_minmax; by_twelfths; nra.
  - intros Hle.
    rewrite (Q.max_r (l * 12 - arbeidskorting_max_income (parameters p)) 0) by lra.
    split_minmax; by_twelfths; nra.
Qed.

(** X4: with non-negative credits, a person's [income_tax] is at most the
    gross tax (clamped at 0) of the scale selected by age, and it is 0 when
    the person's taxable income is not positive. *)
Theorem income_tax_at_most_gross_and_zero_without_income parameters answer p i
    t a h k :
  valid_scale (income_tax_brackets_aow (parameters p)) = true ->
  valid_scale (income_tax_brackets (parameters p)) = true ->
  nth_error (answer "taxable_income" p false) i = Some (VF t) ->
  nth_error (answer "age" p false) i = Some (VF a) ->
  nth_error (answer "algemene_heffingskorting" p false) i = Some (VF h) ->
  nth_error (answer "arbeidskorting" p false) i = Some (VF k) ->
  0 <= h -> 0 <= k ->
  exists x,
    value_at (run_pure answer (income_tax parameters p)) i = Some x /\
    x <= Qmax (if Qle_bool (age_of_retirement (parameters p)) a
               then calc_one (income_tax_brackets_aow (parameters p)) t
               else calc_one (income_tax_brackets (parameters p)) t) 0 /\
    (t <= 0 -> x == 0).
Proof.
  intros Haow Hreg Ht Ha Hh Hk H0 K0.
  rewrite (income_tax_entry parameters answer p i t a h k) by assumption.
  eexists; split; [reflexivity|].
  destruct (Qle_bool _ a); split.
  - split_minmax; lra.
  - intros Hle. pose proof (calc_one_valid_nonpos _ t Haow Hle).
    split_minmax; lra.
  - split_minmax; lra.
  - intros Hle. pose proof (calc_one_valid_nonpos _ t Hreg Hle).
    split_minmax; lra.
Qed.

(** X5: a malformed scale aborts the formula with InvalidScale:
    [income_tax] computes both the AOW and the regular gross tax for every
    person, so either scale being malformed fails it whatever the ages, and
    [social_security_contribution] fails on a malformed contribution scale. *)
Theorem invalid_scale_aborts_income_tax_and_contribution parameters answer p :
  (valid_scale (income_tax_brackets_aow (parameters p)) = false \/
   valid_scale (income_tax_brackets (parameters p)) = false ->
   run_pure answer (income_tax parameters p) = Err InvalidScale) /\
  (valid_scale (social_security_contribution_scale (parameters p)) = false ->
   run_pure answer (social_security_contribution parameters p) = Err InvalidScale).
Proof.
  split.
  - intros [H|H]; simpl; unfold with_calc, calc; rewrite H; [reflexivity|].
    destruct (valid_scale (income_tax_brackets_aow (parameters p))); reflexivity.
  - intros H. simpl. unfold with_calc, calc. rewrite H. reflexivity.
Qed.

(** X6: on a well-formed contribution scale, a person's
    [social_security_contribution] is 0 for a non-positive salary; when the
    scale's rates are non-negative it is never negative and never decreases
    as the salary grows. *)
Theorem social_security_contribution_zero_and_monotone parameters answer1 answer2
    p i s1 s2 :
  valid_scale (social_security_contribution_scale (parameters p)) = true ->
  nth_error (answer1 "salary" p false) i = Some (VF s1) ->
  nth_error (answer2 "salary" p false) i = Some (VF s2) ->
  exists x1 x2,
    value_at (run_pure answer1 (social_security_contribution parameters p)) i = Some x1 /\
    value_at (run_pure answer2 (social_security_contribution parameters p)) i = Some x2 /\
    (s1 <= 0 -> x1 == 0) /\
    (forallb (fun tr => Qle_bool 0 (snd tr))
       (social_security_contribution_scale (parameters p)) = true ->
     0 <= x1 /\ (s1 <= s2 -> x1 <= x2)).
Proof.
  intros Hv H1 H2.
  exists (calc_one (social_security_contribution_scale (parameters p)) s1),
    (calc_one (social_security_contribution_scale (parameters p)) s2).
  split; [simpl; unfold with_calc, calc; rewrite Hv; simpl; entries; reflexivity|].
  split; [simpl; unfold with_calc, calc; rewrite Hv; simpl; entries; reflexivity|].
  generalize dependent (social_security_contribution_scale (parameters p)).
  intros S Hv.
  pose proof (valid_scale_increasing S Hv) as Hinc.
  split; [apply calc_one_valid_nonpos; exact Hv|].
  intros Hr. split.
  - destruct (Qlt_le_dec 0 s1) as [Hpos|Hneg].
    + rewrite <- (calc_one_valid_nonpos S 0 Hv (Qle_refl 0)).
      apply calc_one_mono; [exact Hinc|exact Hr|apply Qlt_le_weak; exact Hpos].
    + rewrite (calc_one_valid_nonpos S s1 Hv Hneg). apply Qle_refl.
  - intros H12. apply calc_one_mono; assumption.
Qed.

(** X7: [zelfstandigenaftrek] reads the hours criterion of the person for
    the whole year: in each month of a year y it is amount / 12 when the
    criterion is met for y and 0 otherwise, so when the annual amount is A
    in every month, the twelve monthly deductions add up to A, or to 0. *)
Theorem zelfstandigenaftrek_months_add_up_to_annual parameters answer y i b A :
  unit y = YEAR -> valid_period y = true ->
  nth_error (answer "urencriterium_voldaan" y false) i = Some (VB b) ->
  forallb (fun m => Qeq_bool (zelfstandigenaftrek_amount (parameters m)) A)
    (months_of y) = true ->
  (forall m, In m (months_of y) ->
     exists x,
       value_at (run_pure answer (zelfstandigenaftrek parameters m)) i = Some x /\
       x == if b then A / 12 else 0) /\
  fold_right Qplus 0
    (map (fun m => match value_at (run_pure answer (zelfstandigenaftrek parameters m)) i
                   with Some x => x | None => 0 end)
         (months_of y))
  == if b then A else 0.
Proof.
  destruct y as [u yy mo]; cbn [unit start_month]. intros -> Hv Hb HA.
  unfold valid_period in Hv; cbn [unit start_month] in Hv.
  apply Z.eqb_eq in Hv. subst mo.
  rewrite forallb_forall in HA.
  assert (Hm : forall m, In m (months_of (mkPeriod YEAR yy 1)) ->
            value_at (run_pure answer (zelfstandigenaftrek parameters m)) i =
            Some (b2Q b * (zelfstandigenaftrek_amount (parameters m) / 12)) /\
            zelfstandigenaftrek_amount (parameters m) == A).
  { intros m Hin. split; [|apply Qeq_bool_iff, HA, Hin].
    unfold months_of in Hin. apply in_map_iff in Hin as [k [<- _]].
    simpl. unfold this_year, year. cbn [start_year]. entries. reflexivity. }
  split.
  - intros m Hin. destruct (Hm m Hin) as [-> HmA].
    eexists; split; [reflexivity|]. rewrite HmA. destruct b; simpl; ring.
  - rewrite (sum_map_const _ _ (b2Q b * (A / 12))).
    + change (List.length (months_of (mkPeriod YEAR yy 1))) with 12%nat.
      destruct b; simpl; field.
    + intros m Hin. destruct (Hm m Hin) as [-> HmA]. rewrite HmA. reflexivity.
Qed.

(** X8: a person's [mkb_winstvrijstelling] is max(profit - aftrek, 0) * rate;
    it is never negative for a non-negative rate and is 0 when the
    zelfstandigenaftrek is at least the profit. *)
Theorem mkb_winstvrijstelling_nonneg_and_zero_without_profit parameters answer p i w z :
  nth_error (answer "winst_voor_aftrek" p false) i = Some (VF w) ->
  nth_error (answer "zelfstandigenaftrek" p false) i = Some (VF z) ->
  exists x,
    value_at (run_pure answer (mkb_winstvrijstelling parameters p)) i = Some x /\
    x == Qmax (w - z) 0 * mkb_winstvrijstelling_rate (parameters p) /\
    (0 <= mkb_winstvrijstelling_rate (parameters p) -> 0 <= x) /\
    (w <= z -> x == 0).
Proof.
  intros Hw Hz.
  rewrite (mkb_winstvrijstelling_entry parameters answer p i w z Hw Hz).
  eexists; split; [reflexivity|]. split; [reflexivity|]. split.
  - intros Hr. split_minmax; nra.
  - intros Hle. rewrite (Q.max_r (w - z) 0) by lra. ring.
Qed.

(** X9: when the [mkb_winstvrijstelling] a person's
    [self_employment_taxable_income] receives is the one its formula gives
    for the same profit and deduction, and the exemption rate r is in
    [0, 1], the taxable self-employment income is
    max(profit - aftrek, 0) * (1 - r), never more than max(profit - aftrek, 0). *)
Theorem self_employment_taxable_income_after_exemption parameters answer p i w z m :
  0 <= mkb_winstvrijstelling_rate (parameters p) ->
  mkb_winstvrijstelling_rate (parameters p) <= 1 ->
  nth_error (answer "winst_voor_aftrek" p false) i = Some (VF w) ->
  nth_error (answer "zelfstandigenaftrek" p false) i = Some (VF z) ->
  nth_error (answer "mkb_winstvrijstelling" p false) i = Some (VF m) ->
  (exists m', value_at (run_pure answer (mkb_winstvrijstelling parameters p)) i
                = Some m' /\ m' == m) ->
  exists x,
    value_at (run_pure answer (self_employment_taxable_income p)) i = Some x /\
    x == Qmax (w - z) 0 * (1 - mkb_winstvrijstelling_rate (parameters p)) /\
    x <= Qmax (w - z) 0.
Proof.
  intros R0 R1 Hw Hz Hm [m' [Hm' Em]].
  rewrite (mkb_winstvrijstelling_entry parameters answer p i w z Hw Hz) in Hm'.
  injection Hm' as <-.
  eexists; split; [simpl; entries; reflexivity|].
  rewrite <- Em. split_minmax; split; nra.
Qed.

(** X10: [household_income] has one entry per household, and when every
    person belongs to one of the households and the salary vector has one
    entry per person, the household incomes add up to the total of all
    salaries. *)
Theorem household_income_conserves_salaries pop answer p :
  forallb (fun h => Nat.ltb h (household_count pop)) (household_of pop) = true ->
  List.length (answer "salary" p false) = List.length (household_of pop) ->
  exists v,
    run_pure answer (household_income pop p) = Ok v /\
    List.length v = household_count pop /\
    fold_right Qplus 0 (floats v) == fold_right Qplus 0 (floats (answer "salary" p false)).
Proof.
  intros Hh Hlen. eexists; split; [reflexivity|].
  rewrite floats_of_floats. unfold hsum. split.
  - unfold of_floats. rewrite !length_map, length_seq. reflexivity.
  - rewrite household_sums_total.
    + rewrite map_snd_combine; [reflexivity|].
      unfold floats. rewrite length_map. symmetry. exact Hlen.
    + intros h x Hin. apply in_combine_l in Hin.
      rewrite forallb_forall in Hh. apply Nat.ltb_lt, Hh, Hin.
Qed.

(** X11: in every month, a household's [disposable_income] plus its
    [total_taxes] is the household's salary, self-employment, capital and
    pension income: both formulas take off the same income tax, the same
    social security contribution and the same housing tax share. *)
Theorem disposable_income_plus_total_taxes_is_gross_income parameters pop values
    m j h s se c pn it ss :
  unit m = MONTH ->
  nth_error (values "housing_tax" (this_year m)) j = Some (VF h) ->
  nth_error (hsum pop (floats (values "salary" m))) j = Some s ->
  nth_error (hsum pop (floats (values "self_employment_taxable_income" m))) j
    = Some se ->
  nth_error (hsum pop (floats (values "capital_returns" m))) j = Some c ->
  nth_error (hsum pop (floats (values "pension" m))) j = Some pn ->
  nth_error (hsum pop (floats (values "income_tax" m))) j = Some it ->
  nth_error (hsum pop (floats (values "social_security_contribution" m))) j
    = Some ss ->
  exists d t,
    value_at (run_pure (answer_of (tax_benefit_system parameters pop) values)
                (disposable_income pop m)) j = Some d /\
    value_at (run_pure (answer_of (tax_benefit_system parameters pop) values)
                (total_taxes pop m)) j = Some t /\
    d + t == s + se + c + pn.
Proof.
  destruct m as [u yy mo]; cbn [unit]. intros ->.
  unfold this_year, year in *; cbn [start_year] in *.
  intros Hh Hs Hse Hc Hpn Hit Hss. do 2 eexists.
  split; [simpl; unfold answer_of, divide_applies, divide12, this_year, year;
          simpl; entries; reflexivity|].
  split; [simpl; unfold answer_of, divide_applies, this_year, year;
          simpl; entries; reflexivity|].
  ring.
Qed.

Lemma algemene_heffingskorting_bounds_witness :
  exists x,
    value_at (run_pure sample_answer
                (algemene_heffingskorting sample_params january_2024)) 0 = Some x /\
    x == Qmax (algemene_heffingskorting_max (sample_params january_2024)
               - Qmax (3000 * 12 - algemene_heffingskorting_income_threshold
                                     (sample_params january_2024)) 0
                 * algemene_heffingskorting_phase_out_rate (sample_params january_2024))
              0 / 12 /\
    0 <= x /\
    (0 <= algemene_heffingskorting_phase_out_rate (sample_params january_2024) ->
     x <= Qmax (algemene_heffingskorting_max (sample_params january_2024)) 0 / 12) /\
    (3000 * 12 <= algemene_heffingskorting_income_threshold (sample_params january_2024) ->
     x == Qmax (algemene_heffingskorting_max (sample_params january_2024)) 0 / 12).
Proof.
  apply (algemene_heffingskorting_bounds sample_params sample_answer january_2024 0 3000).
  reflexivity.
Defined.

Lemma algemene_heffingskorting_non_increasing_witness :
  exists x1 x2,
    value_at (run_pure sample_answer
                (algemene_heffingskorting sample_params january_2024)) 0 = Some x1 /\
    value_at (run_pure (fun n q d => if String.eqb n "taxable_income" then [VF 4000]
                                     else sample_answer n q d)
                (algemene_heffingskorting sample_params january_2024)) 0 = Some x2 /\
    x2 <= x1.
Proof.
  apply (algemene_heffingskorting_non_increasing sample_params sample_answer
           (fun n q d => if String.eqb n "taxable_income" then [VF 4000]
                         else sample_answer n q d)
           january_2024 0 3000 4000);
    try reflexivity; unfold Qle; simpl; lia.
Defined.

Lemma arbeidskorting_bounds_witness :
  exists x,
    value_at (run_pure sample_answer (arbeidskorting sample_params january_2024)) 0
      = Some x /\
    x == Qmax 0 (Qmin (0 * 12 * arbeidskorting_buildup_rate (sample_params january_2024))
                      (arbeidskorting_max (sample_params january_2024))
                 - Qmax (0 * 12 - arbeidskorting_max_income (sample_params january_2024)) 0
                   * arbeidskorting_phase_out_rate (sample_params january_2024)) / 12 /\
    0 <= x /\
    (0 <= arbeidskorting_phase_out_rate (sample_params january_2024) ->
     x <= Qmax (arbeidskorting_max (sample_params january_2024)) 0 / 12) /\
    (0 <= 0 -> 0 <= arbeidskorting_buildup_rate (sample_params january_2024) ->
     0 <= arbeidskorting_phase_out_rate (sample_params january_2024) -> x == 0) /\
    (0 * 12 <= arbeidskorting_max_income (sample_params january_2024) ->
     x == Qmax 0 (Qmin (0 * 12 * arbeidskorting_buildup_rate (sample_params january_2024))
                       (arbeidskorting_max (sample_params january_2024))) / 12).
Proof.
  apply (arbeidskorting_bounds sample_params sample_answer january_2024 0 0).
  reflexivity.
Defined.

Lemma income_tax_at_most_gross_and_zero_without_income_witness :
  exists x,
    value_at (run_pure sample_answer (income_tax sample_params january_2024)) 0
      = Some x /\
    x <= Qmax (if Qle_bool (age_of_retirement (sample_params january_2024)) 70
               then calc_one (income_tax_brackets_aow (sample_params january_2024)) 3000
               else calc_one (income_tax_brackets (sample_params january_2024)) 3000) 0 /\
    (3000 <= 0 -> x == 0).
Proof.
  apply (income_tax_at_most_gross_and_zero_without_income sample_params sample_answer
           january_2024 0 3000 70 100 50);
    try reflexivity; unfold Qle; simpl; lia.
Defined.

Lemma invalid_scale_aborts_income_tax_and_contribution_witness :
  run_pure sample_answer (income_tax invalid_scale_params january_2024)
    = Err InvalidScale /\
  run_pure sample_answer (social_security_contribution invalid_scale_params january_2024)
    = Err InvalidScale.
Proof.
  split.
  - apply (proj1 (invalid_scale_aborts_income_tax_and_contribution
                    invalid_scale_params sample_answer january_2024)).
    left. reflexivity.
  - apply (proj2 (invalid_scale_aborts_income_tax_and_contribution
                    invalid_scale_params sample_answer january_2024)).
    reflexivity.
Defined.

Lemma social_security_contribution_zero_and_monotone_witness :
  exists x1 x2,
    value_at (run_pure sample_answer
                (social_security_contribution sample_params january_2024)) 0 = Some x1 /\
    value_at (run_pure (fun n q d => if String.eqb n "salary" then [VF 6000]
                                     else sample_answer n q d)
                (social_security_contribution sample_params january_2024)) 0 = Some x2 /\
    (3000 <= 0 -> x1 == 0) /\
    (forallb (fun tr => Qle_bool 0 (snd tr))
       (social_security_contribution_scale (sample_params january_2024)) = true ->
     0 <= x1 /\ (3000 <= 6000 -> x1 <= x2)).
Proof.
  apply (social_security_contribution_zero_and_monotone sample_params sample_answer
           (fun n q d => if String.eqb n "salary" then [VF 6000]
                         else sample_answer n q d)
           january_2024 0 3000 6000); reflexivity.
Defined.

Lemma zelfstandigenaftrek_months_add_up_to_annual_witness :
  (forall m, In m (months_of (year 2024)) ->
     exists x,
       value_at (run_pure self_employed_answer (zelfstandigenaftrek sample_params m)) 0
         = Some x /\
       x == 1200 / 12) /\
  fold_right Qplus 0
    (map (fun m => match value_at (run_pure self_employed_answer
                                     (zelfstandigenaftrek sample_params m)) 0
                   with Some x => x | None => 0 end)
         (months_of (year 2024)))
  == 1200.
Proof.
  apply (zelfstandigenaftrek_months_add_up_to_annual sample_params self_employed_answer
           (year 2024) 0 true 1200); vm_compute; reflexivity.
Defined.

Lemma mkb_winstvrijstelling_nonneg_and_zero_without_profit_witness :
  exists x,
    value_at (run_pure sample_answer (mkb_winstvrijstelling sample_params january_2024)) 0
      = Some x /\
    x == Qmax (400 - 100) 0 * mkb_winstvrijstelling_rate (sample_params january_2024) /\
    (0 <= mkb_winstvrijstelling_rate (sample_params january_2024) -> 0 <= x) /\
    (400 <= 100 -> x == 0).
Proof.
  apply (mkb_winstvrijstelling_nonneg_and_zero_without_profit sample_params sample_answer
           january_2024 0 400 100); reflexivity.
Defined.

Lemma self_employment_taxable_income_after_exemption_witness :
  exists x,
    value_at (run_pure sample_answer (self_employment_taxable_income january_2024)) 0
      = Some x /\
    x == Qmax (400 - 100) 0 * (1 - mkb_winstvrijstelling_rate (sample_params january_2024)) /\
    x <= Qmax (400 - 100) 0.
Proof.
  apply (self_employment_taxable_income_after_exemption sample_params sample_answer
           january_2024 0 400 100 42); try reflexivity.
  - unfold Qle; simpl; lia.
  - unfold Qle; simpl; lia.
  - eexists; split; reflexivity.
Defined.

Lemma household_income_conserves_salaries_witness :
  exists v,
    run_pure three_salaries_answer (household_income sample_pop january_2024) = Ok v /\
    List.length v = household_count sample_pop /\
    fold_right Qplus 0 (floats v)
      == fold_right Qplus 0 (floats (three_salaries_answer "salary" january_2024 false)).
Proof.
  apply (household_income_conserves_salaries sample_pop three_salaries_answer
           january_2024); reflexivity.
Defined.

Lemma disposable_income_plus_total_taxes_is_gross_income_witness :
  exists d t,
    value_at (run_pure (answer_of (tax_benefit_system sample_params sample_pop)
                          sample_values)
                (disposable_income sample_pop january_2024)) 0 = Some d /\
    value_at (run_pure (answer_of (tax_benefit_system sample_params sample_pop)
                          sample_values)
                (total_taxes sample_pop january_2024)) 0 = Some t /\
    d + t == 150 + 150 + 150 + 150.
Proof.
  apply (disposable_income_plus_total_taxes_is_gross_income sample_params sample_pop
           sample_values january_2024 0 1200 150 150 150 150 150 150); reflexivity.
Defined.
